(** * shakedown: the pre-flight authentication chain and the pytest report plugin

    A shallow embedding of [src/shakedown/cli/main.py].

    - [Module Auth] embeds the authentication chain of [cli] (lines 86-124).
    - [Module Report] embeds the nested plugin class [shakedown]
      (lines 126-307): its class-level dictionaries, [output] and the five
      pytest hooks.

    The helpers [echo], [fchr] and [decorate] are imported from
    [shakedown.cli.helpers]; what the development keeps of them is the
    sequence of calls made to [echo] / [click.secho], with their arguments. *)

From Stdlib Require Import Ascii String List Bool ZArith Lia.
From stdpp Require Import base option gmap strings list.

Import ListNotations.
Local Open Scope string_scope.
Local Open Scope Z_scope.

(** ** Python values that reach the plugin as "text" *)

Inductive pyval :=
| PyNone
| PyStr (s : string)
| PyRepr (s : string) (crash : option string).
    (* an object such as [report.longrepr]: its [str()], and the [str()] of
       its [reprcrash] attribute when it has one *)

(** Python truthiness: [None] and [''] are false, objects are true. *)
Definition truthy (v : pyval) : bool :=
  match v with
  | PyNone => false
  | PyStr s => negb (s =? EmptyString)%string
  | PyRepr _ _ => true
  end.

(** [str(v)] *)
Definition py_str (v : pyval) : string :=
  match v with
  | PyNone => "None"
  | PyStr s => s
  | PyRepr s _ => s
  end.

(** [hasattr(v, 'reprcrash')], with [str(v.reprcrash)] *)
Definition reprcrash (v : pyval) : option string :=
  match v with
  | PyRepr _ c => c
  | _ => None
  end.

(** ** String helpers used by the hooks *)

Definition colon : ascii := Ascii.ascii_of_nat 58.
Definition blank : ascii := Ascii.ascii_of_nat 32.

(** [s.split('::', 1)] unpacked into two names: [None] stands for the
    [ValueError] of unpacking a one-element list. *)
Fixpoint split_sep (s : string) : option (string * string) :=
  match s with
  | EmptyString => None
  | String c r =>
      let later :=
        match split_sep r with
        | Some (a, b) => Some (String c a, b)
        | None => None
        end in
      match r with
      | String c' r' =>
          if Ascii.eqb c colon && Ascii.eqb c' colon
          then Some (EmptyString, r')
          else later
      | EmptyString => later
      end
  end.

(** [s.split('::', 1)[0]] *)
Definition split_head (s : string) : string :=
  match split_sep s with
  | Some (a, _) => a
  | None => s
  end.

(** [s.split(' ')[-1]]: what follows the last blank. *)
Fixpoint last_word_from (acc s : string) : string :=
  match s with
  | EmptyString => acc
  | String c r =>
      if Ascii.eqb c blank then last_word_from EmptyString r
      else last_word_from (acc ++ String c EmptyString) r
  end.

Definition last_word (s : string) : string := last_word_from EmptyString s.

(** The id has the separator: the unpacking of line 229 succeeds. *)
Definition well_formed (id : string) : bool :=
  match split_sep id with
  | Some _ => true
  | None => false
  end.

(** [k in d] for a dictionary *)
Definition has_key {V} (k : string) (d : gmap string V) : bool :=
  match d !! k with
  | Some _ => true
  | None => false
  end.

(** [if v:] for an option that is [None] or a string *)
Definition str_truthy (v : option string) : bool :=
  match v with
  | Some x => negb (x =? EmptyString)%string
  | None => false
  end.

(** * The authentication chain of [cli] *)

Module Auth.

(** How the probe [shakedown.dcos_leader()] ends: line 96 catches
    [DCOSException] only. *)
Inductive probe :=
| ProbeOk
| ProbeDCOSException
| ProbeOtherException.

(** The cluster behind the client library. An exchange answers [None] when
    it raises; lines 108 and 120 catch whatever is raised. *)
Record client := {
  dcos_leader : gmap string string -> probe;
  authenticate_oauth : string -> option string;
  authenticate : string -> string -> option string
}.

Record args_t := {
  oauth_token : option string;
  username : option string;
  password : option string
}.

Inductive call :=
| GetConfigVal (k : string)
| SetVal (k v : string)
| DcosLeader
| AuthenticateOauth (t : string)
| Authenticate (u p : string).

Inductive line :=
| Echo (text : string) (d : option string) (n : bool)
| Secho (text : string).           (* click.secho(text, fg='red', bold=True) *)

Inductive termination :=
| Proceed                          (* line 126 is reached *)
| SysExit (code : Z)
| Uncaught.                        (* an exception leaves cli *)

Record st := {
  config : gmap string string;     (* the client's persisted configuration *)
  calls : list call;               (* calls made to the client, in order *)
  console : list line
}.

Definition start (cfg : gmap string string) : st :=
  {| config := cfg; calls := []; console := [] |}.

Definition say (l : line) (s : st) : st :=
  {| config := config s; calls := calls s; console := console s ++ [l] |}.

Definition called (c : call) (s : st) : st :=
  {| config := config s; calls := calls s ++ [c]; console := console s |}.

(** imported['dcos'].config.set_val(k, v), taken to return normally *)
Definition set_val (k v : string) (s : st) : st :=
  {| config := <[k := v]> (config s);
     calls := calls s ++ [SetVal k v];
     console := console s |}.

Definition acs_token : string := "core.dcos_acs_token".
Definition auth_failed : line := Secho "error: authentication failed.".
Definition no_credentials : line :=
  Secho "error: no authentication credentials or token found.".

Section Chain.

Variable c : client.
Variable args : args_t.

(** Lines 88-97. [None]: the probe raised something line 96 does not catch. *)
Definition validate_existing (s : st) : option bool * st :=
  let s := called (GetConfigVal acs_token) s in
  match config s !! acs_token with
  | Some _ =>
      let s := say (Echo "Validating existing ACS token..." (Some "step-min") false) s in
      let s := called DcosLeader s in
      match dcos_leader c (config s) with
      | ProbeOk => (Some true, say (Echo "ok" None true) s)
      | ProbeDCOSException => (Some false, say auth_failed s)
      | ProbeOtherException => (None, s)
      end
  | None => (Some false, s)
  end.

(** Lines 98-109. *)
Definition try_oauth (authenticated : bool) (s : st) : bool * st :=
  if negb authenticated && str_truthy (oauth_token args) then
    let t := default EmptyString (oauth_token args) in
    let s := say (Echo "Validating OAuth token..." (Some "step-min") false) s in
    let s := called (AuthenticateOauth t) s in
    match authenticate_oauth c t with
    | Some token =>
        let s := set_val acs_token token s in
        (true, say (Echo "ok" None true) s)
    | None => (authenticated, say auth_failed s)
    end
  else (authenticated, s).

(** Lines 110-121. *)
Definition try_password (authenticated : bool) (s : st) : bool * st :=
  if negb authenticated && str_truthy (username args) && str_truthy (password args) then
    let u := default EmptyString (username args) in
    let p := default EmptyString (password args) in
    let s := say (Echo "Validating username and password..." (Some "step-min") false) s in
    let s := called (Authenticate u p) s in
    match authenticate c u p with
    | Some token =>
        let s := set_val acs_token token s in
        (true, say (Echo "ok" None true) s)
    | None => (authenticated, say auth_failed s)
    end
  else (authenticated, s).

(** Lines 86-124. *)
Definition authenticate_chain (s : st) : termination * st :=
  let s := say (Echo "Authenticating with cluster..." (Some "step-maj") true) s in
  match validate_existing s with
  | (None, s) => (Uncaught, s)
  | (Some authenticated, s) =>
      let '(authenticated, s) := try_oauth authenticated s in
      let '(authenticated, s) := try_password authenticated s in
      if negb authenticated then (SysExit 1, say no_credentials s)
      else (Proceed, s)
  end.

End Chain.

(** The credential inputs that make the chain attempt something: a stored
    token, an OAuth token, or a username together with a password (lines
    89, 98 and 110; a username without a password is no attempt). *)
Definition credentials_supplied (cfg : gmap string string) (args : args_t) : bool :=
  has_key acs_token cfg
  || str_truthy (oauth_token args)
  || (str_truthy (username args) && str_truthy (password args)).

(** The lines written by [click.secho]: the error report. *)
Definition is_error (l : line) : bool :=
  match l with
  | Secho _ => true
  | Echo _ _ _ => false
  end.

Definition errors (s : st) : list line := List.filter is_error (console s).

(** The process ends with a nonzero status: [sys.exit] with a nonzero code,
    or an exception that nothing catches. *)
Definition exits_nonzero (t : termination) : Prop :=
  match t with
  | SysExit code => code <> 0
  | Uncaught => True
  | Proceed => False
  end.

Definition proceeds (t : termination) : bool :=
  match t with
  | Proceed => true
  | _ => false
  end.

Definition is_exchange (k : call) : bool :=
  match k with
  | AuthenticateOauth _ | Authenticate _ _ => true
  | _ => false
  end.

Definition is_write (k : call) : bool :=
  match k with
  | SetVal _ _ => true
  | _ => false
  end.

(** Sample clusters and command lines. *)

Definition rejecting : client :=
  {| dcos_leader := fun _ => ProbeDCOSException;
     authenticate_oauth := fun _ => None;
     authenticate := fun _ _ => None |}.

Definition accepting : client :=
  {| dcos_leader := fun _ => ProbeOk;
     authenticate_oauth := fun t => Some ("acs-" ++ t);
     authenticate := fun u _ => Some ("acs-" ++ u) |}.

Definition no_args : args_t :=
  {| oauth_token := None; username := None; password := None |}.

Definition all_args : args_t :=
  {| oauth_token := Some "oauth"; username := Some "bob";
     password := Some "secret" |}.

Definition stored : gmap string string := {[ acs_token := "old" ]}.

End Auth.

(** * The plugin class [shakedown] *)

Module Report.

(** ** Data *)

(** The two command-line options the plugin reads from [args]. *)
Record args_t := {
  a_stdout : option string;       (* args['stdout']: pass, fail, skip, all, none *)
  a_stdout_inline : bool          (* args['stdout_inline'] *)
}.

(** A pytest report, as far as the hooks look at it. *)
Record report := {
  nodeid : string;
  when : string;
  outcome : string;
  failed : bool;
  passed : bool;
  skipped : bool;
  sections : list (string * string);
  longrepr : pyval
}.

(** The detailed text block [o] built at lines 180-182, kept as the values
    it is rendered from. *)
Record block := {
  b_schr : string;     (* the glyph name given to [fchr] *)
  b_title : string;
  b_state : string;
  b_text : string      (* str(text) *)
}.

(** One call to [echo]. *)
Inductive out :=
| Echo (text : string) (d : option string) (n : bool)
| EchoMarker (schr : string) (d : string) (title : string)
    (* echo(schr, d=state) inside output(title, state, ...) *)
| EchoBlock (o : block).
    (* echo(o) *)

Record report_stats_t := {
  rs_passed : list string;
  rs_skipped : list string;
  rs_failed : list string;
  total_passed : Z;
  total_skipped : Z;
  total_failed : Z
}.

(** The class attributes of [shakedown], and the console. *)
Record agg := {
  sd_state : gmap string Z;                        (* shakedown.state *)
  sd_stdout : list block;                          (* shakedown.stdout *)
  sd_tests_file : gmap string Z;                   (* shakedown.tests['file'] *)
  sd_tests_test : gmap string (gmap string bool);  (* shakedown.tests['test'] *)
  sd_report_stats : report_stats_t;                (* shakedown.report_stats *)
  sd_console : list out                            (* calls to echo so far *)
}.

Definition init_report_stats : report_stats_t :=
  {| rs_passed := []; rs_skipped := []; rs_failed := [];
     total_passed := 0; total_skipped := 0; total_failed := 0 |}.

Definition init : agg :=
  {| sd_state := ∅; sd_stdout := []; sd_tests_file := ∅; sd_tests_test := ∅;
     sd_report_stats := init_report_stats; sd_console := [] |}.

(** ** Exceptions and the plugin's monad *)

Inductive exn :=
| KeyError (k : string)
| UnboundLocalError (v : string).

(** A computation on the shared class state that may raise; the state
    reached is kept in both cases, as the dictionaries are mutated in place. *)
Definition M (A : Type) : Type := agg -> (exn + A) * agg.

Definition ret {A} (a : A) : M A := fun s => (inr a, s).

Definition raise {A} (e : exn) : M A := fun s => (inl e, s).

Definition bind {A B} (m : M A) (k : A -> M B) : M B :=
  fun s =>
    match m s with
    | (inl e, s') => (inl e, s')
    | (inr a, s') => k a s'
    end.

Notation "x <-- m ;; k" := (bind m (fun x => k))
  (at level 100, m at next level, right associativity).
Notation "m ;;; k" := (bind m (fun _ => k))
  (at level 100, right associativity).

Definition when_ (b : bool) (m : M unit) : M unit := if b then m else ret tt.

Definition get {X} (f : agg -> X) : M X := fun s => (inr (f s), s).

Definition echo (o : out) : M unit :=
  fun s =>
    (inr tt,
     {| sd_state := sd_state s; sd_stdout := sd_stdout s;
        sd_tests_file := sd_tests_file s; sd_tests_test := sd_tests_test s;
        sd_report_stats := sd_report_stats s;
        sd_console := sd_console s ++ [o] |}).

(** shakedown.stdout.append(o) *)
Definition stdout_append (o : block) : M unit :=
  fun s =>
    (inr tt,
     {| sd_state := sd_state s; sd_stdout := sd_stdout s ++ [o];
        sd_tests_file := sd_tests_file s; sd_tests_test := sd_tests_test s;
        sd_report_stats := sd_report_stats s;
        sd_console := sd_console s |}).

(** shakedown.state[k] = 1 *)
Definition state_set (k : string) : M unit :=
  fun s =>
    (inr tt,
     {| sd_state := <[k := 1]> (sd_state s); sd_stdout := sd_stdout s;
        sd_tests_file := sd_tests_file s; sd_tests_test := sd_tests_test s;
        sd_report_stats := sd_report_stats s;
        sd_console := sd_console s |}).

(** shakedown.tests['file'][k] = 1 *)
Definition tests_file_set (k : string) : M unit :=
  fun s =>
    (inr tt,
     {| sd_state := sd_state s; sd_stdout := sd_stdout s;
        sd_tests_file := <[k := 1]> (sd_tests_file s);
        sd_tests_test := sd_tests_test s;
        sd_report_stats := sd_report_stats s;
        sd_console := sd_console s |}).

Definition tests_test_put (k : string) (d : gmap string bool) : M unit :=
  fun s =>
    (inr tt,
     {| sd_state := sd_state s; sd_stdout := sd_stdout s;
        sd_tests_file := sd_tests_file s;
        sd_tests_test := <[k := d]> (sd_tests_test s);
        sd_report_stats := sd_report_stats s;
        sd_console := sd_console s |}).

(** shakedown.tests['test'][k], a [KeyError] when [k] is not registered *)
Definition tests_test_get (k : string) : M (gmap string bool) :=
  fun s =>
    match sd_tests_test s !! k with
    | Some d => (inr d, s)
    | None => (inl (KeyError k), s)
    end.

(** shakedown.tests['test'][k][flag] = True *)
Definition tests_test_flag (k flag : string) : M unit :=
  d <-- tests_test_get k ;;
  tests_test_put k (<[flag := true]> d).

(** ** The plugin *)

Section Plugin.

Variable args : args_t.

(** Reading the local [schr] of [output]: it is bound by lines 161-164 only
    when [state] is 'fail' or 'pass'. *)
Definition read_schr (schr : option string) : M string :=
  match schr with
  | Some g => ret g
  | None => raise (UnboundLocalError "schr")
  end.

(** [args['stdout'] in [state, 'all']] *)
Definition stdout_selects (state : string) : bool :=
  match a_stdout args with
  | Some f => (f =? state)%string || (f =? "all")%string
  | None => false
  end.

(** Lines 168-171 and 174-177. *)
Definition echo_marker (title state : string) (schr : option string) : M unit :=
  if (state =? "fail")%string then
    g <-- read_schr schr ;; echo (EchoMarker g "fail" title)
  else if (state =? "pass")%string then
    g <-- read_schr schr ;; echo (EchoMarker g "pass" title)
  else ret tt.

(** [output(title, state, text, status)], lines 149-187. *)
Definition output (title state : string) (text : pyval) (status : bool) : M unit :=
  let schr :=
    if (state =? "fail")%string then Some "FF"
    else if (state =? "pass")%string then Some "PP"
    else None in
  when_ status
    (if negb (a_stdout_inline args) then echo_marker title state schr
     else if negb (truthy text) then echo_marker title state schr
     else ret tt) ;;;
  if truthy text && stdout_selects state then
    g <-- read_schr schr ;;
    let o := {| b_schr := g; b_title := title; b_state := state;
                b_text := py_str text |} in
    if a_stdout_inline args then echo (EchoBlock o)
    else stdout_append o
  else ret tt.

(** Lines 203-208 and 265-270: the three tests in the order written, the
    last one that holds wins. *)
Definition report_state (r : report) (state : option string) : option string :=
  let state := if failed r then Some "fail" else state in
  let state := if passed r then Some "pass" else state in
  let state := if skipped r then Some "skip" else state in
  state.

(** [pytest_collectreport], lines 190-214. *)
Definition pytest_collectreport (r : report) : M unit :=
  st <-- get sd_state ;;
  when_ (negb (has_key "collect" st))
    (state_set "collect" ;;;
     echo (Echo "Collecting and validating test files..." (Some "step-min") true)) ;;;
  when_ (negb (nodeid r =? EmptyString)%string)
    (echo (Echo (nodeid r) (Some "item-maj") false) ;;;
     match report_state r None with
     | Some state =>
         if truthy (longrepr r) then output (nodeid r) state (longrepr r) true
         else output (nodeid r) state PyNone true
     | None => ret tt
     end).

(** [pytest_sessionstart], lines 217-221. *)
Definition pytest_sessionstart : M unit :=
  echo (Echo "Initiating testing phase..." (Some "step-maj") true).

(** [pytest_report_teststatus], lines 224-255. The value returned is [None]
    after the [ValueError], [report.outcome] (first of the triple) otherwise. *)
Definition pytest_report_teststatus (r : report) : M (option string) :=
  match split_sep (nodeid r) with
  | None => ret None
  | Some (report_file, report_test) =>
      st <-- get sd_state ;;
      when_ (negb (has_key "test" st))
        (state_set "test" ;;;
         echo (Echo "Running individual tests..." (Some "step-min") true)) ;;;
      files <-- get sd_tests_file ;;
      when_ (negb (has_key report_file files))
        (tests_file_set report_file ;;;
         when_ (a_stdout_inline args) (echo (Echo EmptyString None true)) ;;;
         echo (Echo report_file (Some "item-maj") true)) ;;;
      tests <-- get sd_tests_test ;;
      when_ (negb (has_key (nodeid r) tests))
        (tests_test_put (nodeid r) ∅ ;;;
         when_ (a_stdout_inline args) (echo (Echo EmptyString None true)) ;;;
         echo (Echo report_test (Some "item-min") false)) ;;;
      when_ (failed r) (tests_test_flag (nodeid r) "fail") ;;;
      when_ (when r =? "teardown")%string
        (d <-- tests_test_get (nodeid r) ;;
         when_ (negb (has_key "tested" d))
           (output (nodeid r) "pass" PyNone true)) ;;;
      ret (Some (outcome r))
  end.

(** One turn of the loop of lines 264-283; [state] is the local that
    survives from one turn to the next. *)
Definition logreport_section (r : report) (state : option string)
    (sec : string * string) : M (option string) :=
  let '(secname, content) := sec in
  let state := report_state r state in
  match state with
  | Some st =>
      if negb (secname =? "Captured stdout call")%string then
        d <-- tests_test_get (nodeid r) ;;
        when_ (negb (has_key "setup" d))
          (let module := split_head (nodeid r) in
           let cap_type := last_word secname in
           tests_test_flag (nodeid r) "setup" ;;;
           output (module ++ " " ++ cap_type) st (PyStr content) false)
      else if (when r =? "call")%string then
        d <-- tests_test_get (nodeid r) ;;
        if has_key "tested" d then
          output (nodeid r) st (PyStr content) false
        else
          tests_test_flag (nodeid r) "tested" ;;;
          output (nodeid r) st (PyStr content) true
      else ret tt
  | None => ret tt
  end ;;;
  ret state.

Fixpoint logreport_sections (r : report) (state : option string)
    (secs : list (string * string)) : M (option string) :=
  match secs with
  | [] => ret state
  | sec :: rest =>
      state' <-- logreport_section r state sec ;;
      logreport_sections r state' rest
  end.

(** [pytest_runtest_logreport], lines 258-296. *)
Definition pytest_runtest_logreport (r : report) : M unit :=
  logreport_sections r None (sections r) ;;;
  match reprcrash (longrepr r) with
  | Some crash =>
      d <-- tests_test_get (nodeid r) ;;
      if has_key "tested" d then
        output (nodeid r) "fail" (PyStr ("error: " ++ crash)) false ;;;
        when_ (a_stdout_inline args) (echo (Echo EmptyString None true))
      else
        tests_test_flag (nodeid r) "tested" ;;;
        output (nodeid r) "fail" (PyStr ("error: " ++ crash)) true
  | None => ret tt
  end.

(** The loop of lines 306-307. *)
Fixpoint echo_all (os : list block) : M unit :=
  match os with
  | [] => ret tt
  | o :: rest => echo (EchoBlock o) ;;; echo_all rest
  end.

(** [pytest_sessionfinish], lines 299-307. *)
Definition pytest_sessionfinish : M unit :=
  echo (Echo "Test phase completed." (Some "step-maj") true) ;;;
  buf <-- get sd_stdout ;;
  when_ (str_truthy (a_stdout args) && negb (bool_decide (buf = [])))
    (echo_all buf).

(** ** The driver's calls *)

Inductive event :=
| CollectReport (r : report)
| SessionStart
| ReportTeststatus (r : report)
| RuntestLogreport (r : report)
| SessionFinish.

Definition hook (e : event) : M unit :=
  match e with
  | CollectReport r => pytest_collectreport r
  | SessionStart => pytest_sessionstart
  | ReportTeststatus r => pytest_report_teststatus r ;;; ret tt
  | RuntestLogreport r => pytest_runtest_logreport r
  | SessionFinish => pytest_sessionfinish
  end.

(** A sequence of hook calls, one after the other. An exception leaving a
    hook ends the sequence: [run] answers with the exception and with the
    state the hooks had built by then. What pytest does after that is not
    part of [run]; its closing call of [pytest_sessionfinish], which it
    makes whether or not a hook has raised, is one more call of the hook on
    the state that [run] leaves. *)
Fixpoint run (es : list event) : M unit :=
  match es with
  | [] => ret tt
  | e :: rest => hook e ;;; run rest
  end.

End Plugin.

(** ** Reading the console *)

Definition is_block (o : out) : bool :=
  match o with
  | EchoBlock _ => true
  | _ => false
  end.

Definition is_marker_of (title : string) (o : out) : bool :=
  match o with
  | EchoMarker _ _ t => (t =? title)%string
  | _ => false
  end.

(** The markers echoed for one node id, in order. *)
Definition markers_of (title : string) (c : list out) : list out :=
  List.filter (is_marker_of title) c.

(** The blocks echoed, in order. *)
Fixpoint blocks_in (c : list out) : list block :=
  match c with
  | [] => []
  | EchoBlock o :: rest => o :: blocks_in rest
  | _ :: rest => blocks_in rest
  end.

Definition finish_header : out :=
  Echo "Test phase completed." (Some "step-maj") true.

Definition is_finish_header (o : out) : bool :=
  match o with
  | Echo t (Some d) true =>
      (t =? "Test phase completed.")%string && (d =? "step-maj")%string
  | _ => false
  end.

(** No block stands before the first completion header. *)
Fixpoint headed (c : list out) : bool :=
  match c with
  | [] => true
  | o :: rest =>
      if is_finish_header o then true
      else negb (is_block o) && headed rest
  end.

Definition set_console (c : list out) (s : agg) : agg :=
  {| sd_state := sd_state s; sd_stdout := sd_stdout s;
     sd_tests_file := sd_tests_file s; sd_tests_test := sd_tests_test s;
     sd_report_stats := sd_report_stats s; sd_console := c |}.

Definition set_stdout (b : list block) (s : agg) : agg :=
  {| sd_state := sd_state s; sd_stdout := b;
     sd_tests_file := sd_tests_file s; sd_tests_test := sd_tests_test s;
     sd_report_stats := sd_report_stats s; sd_console := sd_console s |}.

(** The glyph name bound to [schr] for the two states that bind it. *)
Definition glyph (state : string) : string :=
  if (state =? "fail")%string then "FF" else "PP".

Definition block_of (title state : string) (text : pyval) : block :=
  {| b_schr := glyph state; b_title := title; b_state := state;
     b_text := py_str text |}.

(** ** Sample command lines, reports and runs *)

Definition deferred (f : option string) : args_t :=
  {| a_stdout := f; a_stdout_inline := false |}.

Definition inline (f : option string) : args_t :=
  {| a_stdout := f; a_stdout_inline := true |}.

(** A report as pytest builds it: [failed], [passed] and [skipped] are
    read off [outcome]. *)
Definition pytest_report (id w o : string) (secs : list (string * string))
    (lr : pyval) : report :=
  {| nodeid := id; when := w; outcome := o;
     failed := (o =? "failed")%string;
     passed := (o =? "passed")%string;
     skipped := (o =? "skipped")%string;
     sections := secs; longrepr := lr |}.

(** The two calls pytest makes for one phase of a test: the terminal
    reporter asks for the status, then the plugin's own log hook runs. *)
Definition phase (r : report) : list event :=
  [ReportTeststatus r; RuntestLogreport r].

(** A test whose call passes without any captured text and whose teardown
    crashes. *)
Definition teardown_crash : list event :=
  phase (pytest_report "a.py::t" "setup" "passed" [] PyNone) ++
  phase (pytest_report "a.py::t" "call" "passed" [] PyNone) ++
  phase (pytest_report "a.py::t" "teardown" "failed" []
           (PyRepr "trace" (Some "a.py:3: boom"))).

(** A crash report for a test no status call has announced. *)
Definition unannounced_crash : report :=
  pytest_report "a.py::t" "call" "failed" []
    (PyRepr "trace" (Some "a.py:3: boom")).

(** A status report whose id has no '::'. *)
Definition malformed_teardown : report :=
  pytest_report "a.py" "teardown" "passed" [] PyNone.

(** The call phase of a test that printed [text] and ended with [o], with
    no [longrepr] on its report, as when the call passes. *)
Definition printed_call (id o text : string) : list event :=
  phase (pytest_report id "call" o [("Captured stdout call", text)] PyNone).

End Report.

(** * The rest of [cli]: pre-flight checks, pytest options, exit status *)

(** [c.isspace()] for a character read as a code point below 256: the
    characters [str.split()] treats as separators. *)
Definition isspace (c : ascii) : bool :=
  let n := nat_of_ascii c in
  ((9 <=? n)%nat && (n <=? 13)%nat) || ((28 <=? n)%nat && (n <=? 32)%nat)
  || (n =? 133)%nat || (n =? 160)%nat.

Definition is_empty (s : string) : bool :=
  match s with
  | EmptyString => true
  | String _ _ => false
  end.

(** The scan of [s.split()]: [word] holds the characters of the word being
    read; a separator closes it, and runs of separators give no empty
    word. *)
Fixpoint split_words (word s : string) : list string :=
  match s with
  | EmptyString => if is_empty word then [] else [word]
  | String c r =>
      if isspace c then
        if is_empty word then split_words EmptyString r
        else word :: split_words EmptyString r
      else split_words (word ++ String c EmptyString) r
  end.

(** [s.split()] *)
Definition py_split (s : string) : list string := split_words EmptyString s.

(** No separator in [s]. *)
Fixpoint no_space (s : string) : bool :=
  match s with
  | EmptyString => true
  | String c r => negb (isspace c) && no_space r
  end.

(** A word as [split()] gives them: not empty, without separator. *)
Definition is_word (s : string) : bool := negb (is_empty s) && no_space s.

(** [' '.join(ws)] *)
Fixpoint join_blank (ws : list string) : string :=
  match ws with
  | [] => EmptyString
  | [w] => w
  | w :: rest => (w ++ " " ++ join_blank rest)%string
  end.

Module Cli.

Record args_t := {
  quiet : bool;
  dcos_url : option string;
  ssh_key_file : option string;
  no_banner : bool;
  ssl_no_verify : bool;
  fail : option string;
  pytest_option : list string;
  tests : list string;
  auth : Auth.args_t;              (* oauth_token, username, password *)
  plugin : Report.args_t           (* stdout, stdout_inline *)
}.

(** What [cli] finds around it. [import_module] answers [None] for an
    [ImportError], and otherwise the module as the function reading its
    attributes as text; [dcos_version] answers [None] when the query
    raises (line 82 catches whatever is raised). *)
Record env := {
  persisted : gmap string string;       (* the client's configuration at start *)
  import_module : string -> option (string -> string);
  banner : string;
  dcos_version : gmap string string -> option string;
  cluster : Auth.client;
  pytest_main : list string -> Z        (* imported['pytest'].main(opts, ...) *)
}.

Inductive call :=
| ImportModule (name : string)
| DcosVersion
| Client (c : Auth.call)
| PytestMain (opts : list string).

Record st := {
  cli_quiet : bool;                     (* shakedown.cli.quiet *)
  cli_ssh_key_file : option string;     (* shakedown.cli.ssh_key_file *)
  config : gmap string string;
  calls : list call;
  console : list Auth.line
}.

Definition start (cfg : gmap string string) : st :=
  {| cli_quiet := false; cli_ssh_key_file := None; config := cfg;
     calls := []; console := [] |}.

Definition say (l : Auth.line) (s : st) : st :=
  {| cli_quiet := cli_quiet s; cli_ssh_key_file := cli_ssh_key_file s;
     config := config s; calls := calls s; console := console s ++ [l] |}.

Definition called (c : call) (s : st) : st :=
  {| cli_quiet := cli_quiet s; cli_ssh_key_file := cli_ssh_key_file s;
     config := config s; calls := calls s ++ [c]; console := console s |}.

(** imported['dcos'].config.set_val(k, v), taken to return normally *)
Definition set_val (k v : string) (s : st) : st :=
  {| cli_quiet := cli_quiet s; cli_ssh_key_file := cli_ssh_key_file s;
     config := <[k := v]> (config s);
     calls := calls s ++ [Client (Auth.SetVal k v)];
     console := console s |}.

Definition set_quiet (s : st) : st :=
  {| cli_quiet := true; cli_ssh_key_file := cli_ssh_key_file s;
     config := config s; calls := calls s; console := console s |}.

Definition set_ssh_key_file (f : string) (s : st) : st :=
  {| cli_quiet := cli_quiet s; cli_ssh_key_file := Some f;
     config := config s; calls := calls s; console := console s |}.

(** What the authentication chain did, added to what came before it. *)
Definition after_chain (s : st) (a : Auth.st) : st :=
  {| cli_quiet := cli_quiet s; cli_ssh_key_file := cli_ssh_key_file s;
     config := Auth.config a;
     calls := calls s ++ map Client (Auth.calls a);
     console := console s ++ Auth.console a |}.

(** Lines 55-58, in the order written. *)
Definition requirements : list (string * string) :=
  [("pytest", "__version__"); ("dcos", "version")].

Definition url_required : Auth.line :=
  Auth.Secho
    "error: --dcos-url is a required option; see --help for more information.".

Definition not_installed (req : string) : Auth.line :=
  Auth.Secho ("error: " ++ req ++ " is not installed; run 'pip install "
              ++ req ++ "'.").

Definition unreachable (url : string) : Auth.line :=
  Auth.Secho ("error: cluster '" ++ url ++ "' is unreachable.").

Section Run.

Variable e : env.
Variable args : args_t.

(** The loop of lines 60-70. *)
Fixpoint check_requirements (reqs : list (string * string)) (s : st)
    : Auth.termination * st :=
  match reqs with
  | [] => (Auth.Proceed, s)
  | (req, ver) :: rest =>
      let s := say (Auth.Echo ("Checking for " ++ req ++ " library...")
                      (Some "step-min") false) s in
      let s := called (ImportModule req) s in
      match import_module e req with
      | None => (Auth.SysExit 1, say (not_installed req) s)
      | Some module =>
          check_requirements rest (say (Auth.Echo (module ver) None true) s)
      end
  end.

(** Lines 38-84. *)
Definition preflight (s : st) : Auth.termination * st :=
  let s := if quiet args then set_quiet s else s in
  if negb (str_truthy (dcos_url args)) then
    (Auth.SysExit 1, say url_required s)
  else
    let url := default EmptyString (dcos_url args) in
    let s := if str_truthy (ssh_key_file args)
             then set_ssh_key_file (default EmptyString (ssh_key_file args)) s
             else s in
    let s := if negb (no_banner args)
             then say (Auth.Echo (banner e) None false) s else s in
    let s := say (Auth.Echo "Running pre-flight checks..." (Some "step-maj")
                    true) s in
    match check_requirements requirements s with
    | (Auth.Proceed, s) =>
        let s := if ssl_no_verify args
                 then set_val "core.ssl_verify" "False" s else s in
        let s := say (Auth.Echo "Checking for DC/OS cluster..."
                        (Some "step-min") false) s in
        let s := set_val "core.dcos_url" url s in
        let s := called DcosVersion s in
        match dcos_version e (config s) with
        | Some v => (Auth.Proceed, say (Auth.Echo v None true) s)
        | None => (Auth.SysExit 1, say (unreachable url) s)
        end
    | stopped => stopped
    end.

(** Lines 309-323. *)
Definition build_opts : list string :=
  let opts := ["-q"; "--tb=no"] in
  let opts := if bool_decide (fail args = Some "fast")
              then (opts ++ ["-x"])%list else opts in
  let opts := match pytest_option args with
              | [] => opts
              | _ :: _ =>
                  fold_left (fun opts opt => (opts ++ [opt])%list)
                    (pytest_option args) opts
              end in
  match tests args with
  | [] => opts
  | _ :: _ =>
      let tests_to_run :=
        fold_left (fun acc test => (acc ++ py_split test)%list) (tests args) []
      in
      fold_left (fun opts test => (opts ++ [test])%list) tests_to_run opts
  end.

(** [cli], lines 27-327: pre-flight, authentication, then pytest with the
    plugin, whose exit status is the process's. *)
Definition cli : Auth.termination * st :=
  match preflight (start (persisted e)) with
  | (Auth.Proceed, s) =>
      let '(t, a) :=
        Auth.authenticate_chain (cluster e) (auth args)
          (Auth.start (config s)) in
      let s := after_chain s a in
      match t with
      | Auth.Proceed =>
          let opts := build_opts in
          (Auth.SysExit (pytest_main e opts), called (PytestMain opts) s)
      | stopped => (stopped, s)
      end
  | stopped => stopped
  end.

End Run.

Definition is_pytest (c : call) : bool :=
  match c with
  | PytestMain _ => true
  | _ => false
  end.

Definition is_client (c : call) : bool :=
  match c with
  | Client _ | DcosVersion => true
  | _ => false
  end.

(** Every check before pytest passes: the URL is given, both libraries
    import, the cluster answers the version query with the URL (and the
    SSL setting) written, and the chain authenticates. *)
Definition probed_config (e : env) (args : args_t) : gmap string string :=
  let cfg := persisted e in
  let cfg := if ssl_no_verify args
             then <["core.ssl_verify" := "False"]> cfg else cfg in
  <["core.dcos_url" := default EmptyString (dcos_url args)]> cfg.

Definition imports_ok (e : env) : bool :=
  forallb (fun r => match import_module e r.1 with
                    | Some _ => true
                    | None => false
                    end) requirements.

Definition ready (e : env) (args : args_t) : bool :=
  str_truthy (dcos_url args)
  && imports_ok e
  && match dcos_version e (probed_config e args) with
     | Some _ => true
     | None => false
     end
  && Auth.proceeds
       (Auth.authenticate_chain (cluster e) (auth args)
          (Auth.start (probed_config e args))).1.

(** Sample surroundings and command lines. *)

Definition healthy : env :=
  {| persisted := Auth.stored;
     import_module := fun _ => Some (fun _ => "1.0");
     banner := "shakedown";
     dcos_version := fun _ => Some "1.8";
     cluster := Auth.accepting;
     pytest_main := fun opts => Z.of_nat (length opts) |}.

Definition no_cluster : env :=
  {| persisted := ∅;
     import_module := fun _ => Some (fun _ => "1.0");
     banner := "shakedown";
     dcos_version := fun _ => None;
     cluster := Auth.rejecting;
     pytest_main := fun _ => 0 |}.

Definition no_dcos_library : env :=
  {| persisted := ∅;
     import_module :=
       fun r => if (r =? "dcos")%string then None else Some (fun _ => "1.0");
     banner := "shakedown";
     dcos_version := fun _ => Some "1.8";
     cluster := Auth.accepting;
     pytest_main := fun _ => 0 |}.

Definition sample_args : args_t :=
  {| quiet := false; dcos_url := Some "http://cluster"; ssh_key_file := None;
     no_banner := true; ssl_no_verify := true; fail := Some "fast";
     pytest_option := ["-v"]; tests := ["a.py  b.py"; " c.py::t "];
     auth := Auth.all_args; plugin := Report.deferred (Some "fail") |}.

End Cli.

(** * Reading a run of the authentication chain *)

Definition probe_ok (p : Auth.probe) : bool :=
  match p with
  | Auth.ProbeOk => true
  | _ => false
  end.

Definition answers {A} (o : option A) : bool :=
  match o with
  | Some _ => true
  | None => false
  end.

(** A strategy is given its input and the cluster accepts it. *)
Definition strategy_succeeds (c : Auth.client) (args : Auth.args_t)
    (cfg : gmap string string) : bool :=
  (has_key Auth.acs_token cfg && probe_ok (Auth.dcos_leader c cfg))
  || (str_truthy (Auth.oauth_token args)
      && answers (Auth.authenticate_oauth c
                    (default EmptyString (Auth.oauth_token args))))
  || (str_truthy (Auth.username args) && str_truthy (Auth.password args)
      && answers (Auth.authenticate c
                    (default EmptyString (Auth.username args))
                    (default EmptyString (Auth.password args)))).

(** The calls other than writes that the chain can make, in the order of
    the source. *)
Definition strategy_order (args : Auth.args_t) : list Auth.call :=
  [Auth.GetConfigVal Auth.acs_token;
   Auth.DcosLeader;
   Auth.AuthenticateOauth (default EmptyString (Auth.oauth_token args));
   Auth.Authenticate (default EmptyString (Auth.username args))
     (default EmptyString (Auth.password args))].

(** The probe of the stored token raises something that line 96 does not
    catch. *)
Definition probe_raises (p : Auth.probe) : bool :=
  match p with
  | Auth.ProbeOtherException => true
  | _ => false
  end.

(** How many strategies are given their input: a stored token (line 89),
    an OAuth token (line 98), a username with a password (line 110). *)
Definition attempted (cfg : gmap string string) (args : Auth.args_t) : nat :=
  ((if has_key Auth.acs_token cfg then 1 else 0)
   + (if str_truthy (Auth.oauth_token args) then 1 else 0)
   + (if str_truthy (Auth.username args) && str_truthy (Auth.password args)
      then 1 else 0))%nat.

(** * Reading the registry and the console *)

(** [flag in shakedown.tests['test'][id]], false for an id that is not
    registered. *)
Definition flagged (flag id : string) (s : Report.agg) : bool :=
  match Report.sd_tests_test s !! id with
  | Some d => has_key flag d
  | None => false
  end.

Definition is_collect (e : Report.event) : bool :=
  match e with
  | Report.CollectReport _ => true
  | _ => false
  end.

Definition is_finish (e : Report.event) : bool :=
  match e with
  | Report.SessionFinish => true
  | _ => false
  end.

(** A section that the loop of lines 264-283 passes over: the captured
    stdout of the call in a report of another phase, or any other capture
    once the node carries 'setup'. *)
Definition silent_section (r : Report.report) (s : Report.agg)
    (sec : string * string) : bool :=
  if (sec.1 =? "Captured stdout call")%string
  then negb (Report.when r =? "call")%string
  else flagged "setup" (Report.nodeid r) s.

(** The header that the status hook writes for a file, line 241. *)
Definition file_header (file : string) : Report.out :=
  Report.Echo file (Some "item-maj") true.

Definition is_file_header (file : string) (o : Report.out) : bool :=
  match o with
  | Report.Echo t (Some d) true =>
      (t =? file)%string && (d =? "item-maj")%string
  | _ => false
  end.

(** How many times the header of [file] stands on the console. *)
Definition file_headers (file : string) (c : list Report.out) : nat :=
  length (List.filter (is_file_header file) c).

(** * Relations between the state before and the state after *)

(** [m] takes every state to one related to it by [R], whether it returns
    or raises. *)
Definition within (R : Report.agg -> Report.agg -> Prop) {A}
    (m : Report.M A) : Prop :=
  forall s, R s (m s).2.

(** The statistics are what they were. *)
Definition same_stats (s s' : Report.agg) : Prop :=
  Report.sd_report_stats s' = Report.sd_report_stats s.

(** The console grows by entries that are not blocks. *)
Definition quiet (s s' : Report.agg) : Prop :=
  exists l, Report.sd_console s' = (Report.sd_console s ++ l)%list /\
            Report.blocks_in l = [].

(** A console without a block before the header stays so. *)
Definition keeps_headed (s s' : Report.agg) : Prop :=
  Report.headed (Report.sd_console s) = true ->
  Report.headed (Report.sd_console s') = true.

(** The buffer is left as it is. *)
Definition same_buffer (s s' : Report.agg) : Prop :=
  Report.sd_stdout s' = Report.sd_stdout s.

(** The buffer grows at its end only. *)
Definition buffer_grows (s s' : Report.agg) : Prop :=
  exists l, Report.sd_stdout s' = (Report.sd_stdout s ++ l)%list.

(** Once [id] carries 'tested', it keeps it and gets no new marker. *)
Definition stays_marked (id : string) (s s' : Report.agg) : Prop :=
  flagged "tested" id s = true ->
  flagged "tested" id s' = true /\
  Report.markers_of id (Report.sd_console s')
  = Report.markers_of id (Report.sd_console s).

(** The header of [file] is written when, and only when, the file enters
    the registry. *)
Definition header_balance (file : string) (s s' : Report.agg) : Prop :=
  (file_headers file (Report.sd_console s')
   + (if has_key file (Report.sd_tests_file s) then 1 else 0)
   = file_headers file (Report.sd_console s)
     + (if has_key file (Report.sd_tests_file s') then 1 else 0))%nat.

(** Neither the registry of files nor the headers of [file] change. *)
Definition no_header (file : string) (s s' : Report.agg) : Prop :=
  Report.sd_tests_file s' = Report.sd_tests_file s /\
  file_headers file (Report.sd_console s')
  = file_headers file (Report.sd_console s).

(** A file that is registered stays so. *)
Definition file_kept (file : string) (s s' : Report.agg) : Prop :=
  has_key file (Report.sd_tests_file s) = true ->
  has_key file (Report.sd_tests_file s') = true.

(** An inline state and a deferred state that agree: the same
    dictionaries, and the blocks echoed on the one side are the blocks
    buffered on the other. *)
Definition same_blocks (si sd : Report.agg) : Prop :=
  Report.sd_state si = Report.sd_state sd /\
  Report.sd_tests_file si = Report.sd_tests_file sd /\
  Report.sd_tests_test si = Report.sd_tests_test sd /\
  Report.blocks_in (Report.sd_console si) = Report.sd_stdout sd.

(** Two computations that, from states that agree, end the same way in
    states that agree. *)
Definition related {A} (m1 m2 : Report.M A) : Prop :=
  forall s1 s2, same_blocks s1 s2 ->
    (m1 s1).1 = (m2 s2).1 /\ same_blocks (m1 s1).2 (m2 s2).2.

(** The two registries are what they were. *)
Definition same_registry (s s' : Report.agg) : Prop :=
  Report.sd_tests_test s' = Report.sd_tests_test s /\
  Report.sd_tests_file s' = Report.sd_tests_file s.

(** * Tests as pytest reports them *)

(** The call phase of a test that printed [text] and ended with [o]; [lr]
    is the [longrepr] of its report: [None] for a call that passes, an
    object with a [reprcrash] for one that fails, a tuple for a skip. *)
Definition reported_call (id o text : string) (lr : pyval)
    : list Report.event :=
  Report.phase
    (Report.pytest_report id "call" o [("Captured stdout call", text)] lr).

(** The three phases of a test whose call printed [text] and ended with
    [o]: the report of the teardown carries the captured text of the call
    again. *)
Definition reported_test (id o text : string) (lr : pyval)
    : list Report.event :=
  (Report.phase (Report.pytest_report id "setup" "passed" [] PyNone)
   ++ reported_call id o text lr
   ++ Report.phase
        (Report.pytest_report id "teardown" "passed"
           [("Captured stdout call", text)] PyNone))%list.


(** Three calls that print, one passing, one failing, one skipped, and the
    end of the session. *)
Definition three_reports (n1 n2 n3 t1 t2 t3 : string) (lr2 : pyval)
    (reason : string) : list Report.event :=
  (reported_call n1 "passed" t1 PyNone ++
   reported_call n2 "failed" t2 lr2 ++
   reported_call n3 "skipped" t3 (PyRepr reason None) ++
   [Report.SessionFinish])%list.

(** The block that lines 286-296 add for a report with a [reprcrash]. *)
Definition crash_blocks (id : string) (lr : pyval) : list Report.block :=
  match reprcrash lr with
  | Some crash =>
      [Report.block_of id "fail" (PyStr ("error: " ++ crash))]
  | None => []
  end.

(** A block of a failed result, with the glyph of a failure at its head. *)
Definition is_fail_block (b : Report.block) : bool :=
  (Report.b_state b =? "fail")%string && (Report.b_schr b =? "FF")%string.

(** Every block, echoed or buffered, is the block of a failed result. *)
Definition fail_blocks (s : Report.agg) : bool :=
  forallb is_fail_block (Report.blocks_in (Report.sd_console s))
  && forallb is_fail_block (Report.sd_stdout s).

Definition only_fail (s s' : Report.agg) : Prop :=
  fail_blocks s = true -> fail_blocks s' = true.

(** * The string helpers on small inputs *)

Example split_sep_first : split_sep "a.py::T::x" = Some ("a.py", "T::x").
Proof. reflexivity. Qed.

Example split_sep_three_colons : split_sep "a:::b" = Some ("a", ":b").
Proof. reflexivity. Qed.

Example split_sep_single_colon : split_sep "a.py:t" = None.
Proof. reflexivity. Qed.

Example split_head_no_separator : split_head "a.py" = "a.py".
Proof. reflexivity. Qed.

Example last_word_section : last_word "Captured stderr setup" = "setup".
Proof. reflexivity. Qed.

Example last_word_trailing_blank : last_word "Captured " = EmptyString.
Proof. reflexivity. Qed.

(** * Properties of the authentication chain *)

Lemma has_key_lookup {V} (k : string) (d : gmap string V) :
  has_key k d = true <-> is_Some (d !! k).
Proof.
  unfold has_key. destruct (d !! k) eqn:E; split; intros H; eauto.
  - discriminate.
  - destruct H as [x Hx]. discriminate.
Qed.

Ltac chain_cases :=
  repeat match goal with
  | |- context [Auth.authenticate_oauth ?c ?t] =>
      destruct (Auth.authenticate_oauth c t) eqn:?; cbn
  | |- context [Auth.authenticate ?c ?u ?p] =>
      destruct (Auth.authenticate c u p) eqn:?; cbn
  | |- context [str_truthy ?v] => destruct (str_truthy v) eqn:?; cbn
  | |- context [Auth.dcos_leader ?c ?g] =>
      destruct (Auth.dcos_leader c g) eqn:?; cbn
  end.

(** C2. When no strategy succeeds (no stored token that the probe accepts,
    no OAuth token and no username with password that the cluster
    exchanges), the process ends with a nonzero status, and the error report
    tells the two cases apart. Each strategy that was given its input writes
    "authentication failed"; the chain then writes "no authentication
    credentials or token found" and exits with code 1. So with no credential
    input at all that last line is the whole error report, and with
    credential inputs it comes after one "authentication failed" line per
    strategy tried. The one other way out is the probe of a stored token
    raising something other than [DCOSException]: nothing catches it, no
    error line is written, and the process dies of the exception. The error
    report is the single line "no authentication credentials or token found"
    exactly when no credential input was supplied. *)
Theorem failed_chain_reports_and_exits
    (c : Auth.client) (args : Auth.args_t) (cfg : gmap string string) :
  strategy_succeeds c args cfg = false ->
  let r := Auth.authenticate_chain c args (Auth.start cfg) in
  Auth.exits_nonzero r.1 /\
  (if has_key Auth.acs_token cfg && probe_raises (Auth.dcos_leader c cfg)
   then r.1 = Auth.Uncaught /\ Auth.errors r.2 = []
   else r.1 = Auth.SysExit 1 /\
        Auth.errors r.2
        = (repeat Auth.auth_failed (attempted cfg args)
           ++ [Auth.no_credentials])%list) /\
  (Auth.credentials_supplied cfg args = false <-> attempted cfg args = 0%nat) /\
  (Auth.credentials_supplied cfg args = false <->
   r.1 = Auth.SysExit 1 /\ Auth.errors r.2 = [Auth.no_credentials]).
Proof.
  intros H r. subst r. revert H.
  unfold Auth.authenticate_chain, Auth.validate_existing, Auth.try_oauth,
    Auth.try_password, Auth.credentials_supplied, strategy_succeeds,
    attempted, has_key, probe_raises, probe_ok, answers.
  cbn [Auth.config Auth.calls Auth.console Auth.say Auth.called Auth.set_val
       Auth.start].
  destruct (cfg !! Auth.acs_token) as [t|] eqn:Et; cbn; chain_cases;
    intros H; try discriminate H;
    (split; [ cbn; first [ exact I | lia ] | ]);
    (split; [ split; reflexivity | ]);
    (split; split; intros X; try discriminate X; try reflexivity;
     try (destruct X; discriminate);
     try (split; reflexivity)).
Qed.

(** C2 at two runs against a cluster that rejects everything: with no input
    at all the error report is the one line; with a stored token and both
    kinds of command-line credentials it is three "authentication failed"
    lines and then that line. *)
Lemma failed_chain_reports_and_exits_witness :
  (strategy_succeeds Auth.rejecting Auth.no_args ∅ = false /\
   Auth.errors (Auth.authenticate_chain Auth.rejecting Auth.no_args
                  (Auth.start ∅)).2 = [Auth.no_credentials]) /\
  (strategy_succeeds Auth.rejecting Auth.all_args Auth.stored = false /\
   Auth.errors (Auth.authenticate_chain Auth.rejecting Auth.all_args
                  (Auth.start Auth.stored)).2
   = [Auth.auth_failed; Auth.auth_failed; Auth.auth_failed;
      Auth.no_credentials]).
Proof.
  split.
  - split; [reflexivity|].
    pose proof (failed_chain_reports_and_exits Auth.rejecting Auth.no_args ∅
                  eq_refl) as [_ [H _]].
    exact (proj2 H).
  - split; [reflexivity|].
    pose proof (failed_chain_reports_and_exits Auth.rejecting Auth.all_args
                  Auth.stored eq_refl) as [_ [H _]].
    exact (proj2 H).
Defined.

(** C6. With a token in the persisted configuration and a probe that
    succeeds, the chain makes exactly two calls to the client, the lookup
    of the token and the probe: no OAuth exchange, no password exchange, no
    write; the configuration is the one it started from and the program
    goes on. *)
Theorem valid_existing_token_stops
    (c : Auth.client) (args : Auth.args_t) (cfg : gmap string string) :
  has_key Auth.acs_token cfg = true ->
  Auth.dcos_leader c cfg = Auth.ProbeOk ->
  let r := Auth.authenticate_chain c args (Auth.start cfg) in
  r.1 = Auth.Proceed /\
  Auth.calls r.2 = [Auth.GetConfigVal Auth.acs_token; Auth.DcosLeader] /\
  List.filter Auth.is_exchange (Auth.calls r.2) = [] /\
  List.filter Auth.is_write (Auth.calls r.2) = [] /\
  Auth.config r.2 = cfg /\
  Auth.errors r.2 = [].
Proof.
  intros Hk Hp r. subst r.
  apply has_key_lookup in Hk. destruct Hk as [t Ht].
  unfold Auth.authenticate_chain, Auth.validate_existing.
  cbn [Auth.config Auth.calls Auth.console Auth.say Auth.called Auth.start].
  rewrite Ht, Hp.
  unfold Auth.try_oauth, Auth.try_password. cbn.
  repeat split; reflexivity.
Qed.

Lemma valid_existing_token_stops_witness :
  has_key Auth.acs_token Auth.stored = true /\
  Auth.dcos_leader Auth.accepting Auth.stored = Auth.ProbeOk /\
  Auth.config (Auth.authenticate_chain Auth.accepting Auth.all_args
                 (Auth.start Auth.stored)).2 = Auth.stored.
Proof.
  split; [reflexivity|]. split; [reflexivity|].
  apply (valid_existing_token_stops Auth.accepting Auth.all_args Auth.stored);
    reflexivity.
Defined.

(** * Properties of the plugin *)

(** ** What every step of a computation keeps *)

Section Within.

Variable R : Report.agg -> Report.agg -> Prop.
Hypothesis R_refl : forall s, R s s.
Hypothesis R_trans : forall a b c, R a b -> R b c -> R a c.

Lemma within_ret {A} (a : A) : within R (Report.ret a).
Proof. intros s. apply R_refl. Qed.

Lemma within_raise {A} (e : Report.exn) : within R (@Report.raise A e).
Proof. intros s. apply R_refl. Qed.

Lemma within_get {X} (f : Report.agg -> X) : within R (Report.get f).
Proof. intros s. apply R_refl. Qed.

Lemma within_tests_test_get (k : string) : within R (Report.tests_test_get k).
Proof.
  intros s. unfold Report.tests_test_get.
  destruct (Report.sd_tests_test s !! k); apply R_refl.
Qed.

Lemma within_bind {A B} (m : Report.M A) (k : A -> Report.M B) :
  within R m -> (forall a, within R (k a)) -> within R (Report.bind m k).
Proof.
  intros Hm Hk s. unfold Report.bind.
  specialize (Hm s). destruct (m s) as [[e|a] s']; simpl in *.
  - exact Hm.
  - eapply R_trans; [exact Hm | apply Hk].
Qed.

Lemma within_when (b : bool) (m : Report.M unit) :
  within R m -> within R (Report.when_ b m).
Proof. intros Hm. destruct b; simpl; [exact Hm | apply within_ret]. Qed.

End Within.

Ltac within_step Hr Ht prim :=
  first
    [ prim
    | apply (within_ret _ Hr)
    | apply (within_raise _ Hr)
    | apply (within_get _ Hr)
    | apply (within_tests_test_get _ Hr)
    | apply (within_when _ Hr)
    | apply (within_bind _ Ht); [ | intros ? ]
    | match goal with
      | |- within _ (if ?b then _ else _) => destruct b eqn:?
      | |- within _ (match ?x with _ => _ end) => destruct x eqn:?
      | |- within _ (let '(_, _) := ?p in _) => destruct p
      end ].

Ltac within_steps Hr Ht prim := repeat within_step Hr Ht prim.

(** The hooks that run before the session finishes are made of echoes of
    labels, writes to the dictionaries and calls to [output]: a relation
    these keep is kept by the hooks. *)
Section Hooks.

Variable R : Report.agg -> Report.agg -> Prop.
Hypothesis R_refl : forall s, R s s.
Hypothesis R_trans : forall a b c, R a b -> R b c -> R a c.
Variable args : Report.args_t.
Hypothesis R_echo : forall t d n, within R (Report.echo (Report.Echo t d n)).
Hypothesis R_state_set : forall k, within R (Report.state_set k).
Hypothesis R_file_set : forall k, within R (Report.tests_file_set k).
Hypothesis R_test_put : forall k d, within R (Report.tests_test_put k d).
Hypothesis R_output : forall title state text status,
  within R (Report.output args title state text status).

Local Ltac calls :=
  first [ apply R_echo | apply R_state_set | apply R_file_set
        | apply R_test_put | apply R_output ].

Lemma within_flag k flag : within R (Report.tests_test_flag k flag).
Proof. unfold Report.tests_test_flag. within_steps R_refl R_trans calls. Qed.

Lemma within_sections r secs :
  forall state, within R (Report.logreport_sections args r state secs).
Proof.
  induction secs as [|sec rest IH]; intros state; simpl.
  - apply (within_ret _ R_refl).
  - unfold Report.logreport_section.
    within_steps R_refl R_trans
      ltac:(first [ apply IH | apply within_flag | calls ]).
Qed.

Lemma within_hook e :
  e <> Report.SessionFinish -> within R (Report.hook args e).
Proof.
  intros He. destruct e; try congruence; simpl;
    unfold Report.pytest_collectreport, Report.pytest_sessionstart,
      Report.pytest_report_teststatus, Report.pytest_runtest_logreport;
    within_steps R_refl R_trans
      ltac:(first [ apply within_sections | apply within_flag | calls ]).
Qed.

(** With the last hook as well, the relation holds along every run. *)
Hypothesis R_finish : within R (Report.pytest_sessionfinish args).

Lemma within_run es : within R (Report.run args es).
Proof.
  induction es as [|e rest IH]; simpl.
  - apply (within_ret _ R_refl).
  - apply (within_bind _ R_trans); [ | intros _; exact IH ].
    assert (e = Report.SessionFinish \/ e <> Report.SessionFinish) as [->|He]
      by (destruct e; first [ left; reflexivity | right; discriminate ]).
    + exact R_finish.
    + apply within_hook. exact He.
Qed.

End Hooks.

(** ** [output] on the two states that bind [schr] *)

Lemma output_spec args title state text status s :
  In state ["pass"; "fail"] ->
  Report.output args title state text status s
  = (inr tt,
     Report.set_stdout
       (Report.sd_stdout s ++
        (if truthy text && Report.stdout_selects args state
            && negb (Report.a_stdout_inline args)
         then [Report.block_of title state text] else []))
       (Report.set_console
          (Report.sd_console s ++
           (if status && (negb (Report.a_stdout_inline args)
                          || negb (truthy text))
            then [Report.EchoMarker (Report.glyph state) state title]
            else []) ++
           (if truthy text && Report.stdout_selects args state
               && Report.a_stdout_inline args
            then [Report.EchoBlock (Report.block_of title state text)]
            else []))
          s)).
Proof.
  intros Hst.
  destruct Hst as [<- | [<- | []]];
    unfold Report.output, Report.echo_marker, Report.block_of, Report.glyph;
    cbn [String.eqb Ascii.eqb Bool.eqb];
    destruct status, (Report.a_stdout_inline args), (truthy text),
      (Report.stdout_selects args _);
    destruct s; cbn; rewrite ?app_nil_r; reflexivity.
Qed.

(** ** What the last hook writes *)

Lemma echo_all_spec os s :
  Report.echo_all os s
  = (inr tt, Report.set_console
               (Report.sd_console s ++ map Report.EchoBlock os) s).
Proof.
  revert s. induction os as [|o rest IH]; intros s; simpl.
  - unfold Report.ret, Report.set_console. rewrite app_nil_r.
    destruct s; reflexivity.
  - unfold Report.bind, Report.echo. rewrite IH.
    unfold Report.set_console. simpl. rewrite <- app_assoc. reflexivity.
Qed.

(** The header, then the buffer from its first block to its last. *)
Lemma sessionfinish_spec args s :
  Report.pytest_sessionfinish args s
  = (inr tt,
     Report.set_console
       (Report.sd_console s ++
        Report.finish_header ::
        (if str_truthy (Report.a_stdout args)
         then map Report.EchoBlock (Report.sd_stdout s) else [])) s).
Proof.
  unfold Report.pytest_sessionfinish, Report.bind, Report.echo, Report.get,
    Report.when_.
  cbn [Report.sd_stdout Report.sd_console].
  destruct (str_truthy (Report.a_stdout args)); cbn [andb].
  - destruct (Report.sd_stdout s) as [|b bs] eqn:Eb.
    + cbn. unfold Report.ret, Report.set_console. cbn. rewrite Eb. reflexivity.
    + cbn [negb bool_decide]. rewrite bool_decide_false by discriminate.
      cbn [negb]. rewrite echo_all_spec. unfold Report.set_console. cbn.
      rewrite Eb. rewrite <- app_assoc. reflexivity.
  - unfold Report.ret, Report.set_console. cbn. reflexivity.
Qed.

(** ** The statistics are never written *)

Lemma same_stats_refl s : same_stats s s.
Proof. reflexivity. Qed.

Lemma same_stats_trans a b c : same_stats a b -> same_stats b c -> same_stats a c.
Proof. unfold same_stats. congruence. Qed.

Lemma same_stats_output args title state text status :
  within same_stats (Report.output args title state text status).
Proof.
  unfold Report.output, Report.echo_marker, Report.read_schr.
  within_steps same_stats_refl same_stats_trans ltac:(intros ?; reflexivity).
Qed.

Lemma same_stats_run args es : within same_stats (Report.run args es).
Proof.
  apply (within_run _ same_stats_refl same_stats_trans);
    try (intros; intros ?; reflexivity).
  - apply same_stats_output.
  - intros s. rewrite sessionfinish_spec. reflexivity.
Qed.

(** C10. No hook writes [report_stats]: after any sequence of calls, from
    any state and whether or not a hook raised, it is what it was; started
    from the class definition it still holds the empty lists and the three
    zeros after the session has finished. *)
Theorem report_stats_frame (args : Report.args_t) (es : list Report.event) :
  (forall s, Report.sd_report_stats (Report.run args es s).2
             = Report.sd_report_stats s) /\
  Report.sd_report_stats
    (Report.run args (es ++ [Report.SessionFinish]) Report.init).2
  = Report.init_report_stats.
Proof.
  split.
  - intros s. apply (same_stats_run args es s).
  - apply (same_stats_run args (es ++ [Report.SessionFinish])%list Report.init).
Qed.

(** ** Where the blocks go *)

Lemma blocks_in_app (c1 c2 : list Report.out) :
  Report.blocks_in (c1 ++ c2)
  = (Report.blocks_in c1 ++ Report.blocks_in c2)%list.
Proof.
  induction c1 as [|o rest IH]; simpl; [reflexivity|].
  destruct o; simpl; rewrite IH; reflexivity.
Qed.

Lemma blocks_in_map (bs : list Report.block) :
  Report.blocks_in (map Report.EchoBlock bs) = bs.
Proof. induction bs as [|b bs IH]; simpl; [reflexivity | rewrite IH; reflexivity]. Qed.

Lemma quiet_refl s : quiet s s.
Proof. exists []. split; [symmetry; apply app_nil_r | reflexivity]. Qed.

Lemma quiet_trans a b c : quiet a b -> quiet b c -> quiet a c.
Proof.
  intros [l1 [H1 B1]] [l2 [H2 B2]]. exists (l1 ++ l2)%list. split.
  - rewrite H2, H1. symmetry. apply app_assoc.
  - rewrite blocks_in_app, B1, B2. reflexivity.
Qed.

Lemma quiet_echo o : Report.is_block o = false -> within quiet (Report.echo o).
Proof.
  intros Ho s. exists [o]. split; [reflexivity|].
  destruct o; simpl in *; [reflexivity | reflexivity | discriminate].
Qed.

Lemma quiet_silent {A} (m : Report.M A) :
  (forall s, Report.sd_console (m s).2 = Report.sd_console s) -> within quiet m.
Proof.
  intros H s. exists []. split; [|reflexivity].
  rewrite H. symmetry. apply app_nil_r.
Qed.

Ltac quiet_prim :=
  first [ apply quiet_echo; reflexivity
        | apply quiet_silent; intros ?; reflexivity ].

(** In deferred mode [output] echoes markers only. *)
Lemma quiet_output f title state text status :
  within quiet (Report.output (Report.deferred f) title state text status).
Proof.
  unfold Report.output, Report.echo_marker, Report.read_schr.
  cbn [Report.a_stdout_inline Report.deferred negb].
  within_steps quiet_refl quiet_trans quiet_prim.
Qed.

Lemma quiet_hook f e :
  e <> Report.SessionFinish -> within quiet (Report.hook (Report.deferred f) e).
Proof.
  apply (within_hook _ quiet_refl quiet_trans); try (intros; quiet_prim).
  apply quiet_output.
Qed.

Lemma headed_app_quiet c l :
  Report.headed c = true -> Report.blocks_in l = [] ->
  Report.headed (c ++ l) = true.
Proof.
  intros Hc Hl. induction c as [|o rest IH]; simpl in *.
  - induction l as [|x l IHl]; simpl in *; [reflexivity|].
    destruct (Report.is_finish_header x); [reflexivity|].
    destruct x; simpl in *; try discriminate; apply IHl; exact Hl.
  - destruct (Report.is_finish_header o); [reflexivity|].
    apply andb_true_iff in Hc. destruct Hc as [Ho Hr].
    rewrite Ho. simpl. apply IH. exact Hr.
Qed.

Lemma headed_app_header c l :
  Report.headed c = true ->
  Report.headed (c ++ Report.finish_header :: l) = true.
Proof.
  intros Hc. induction c as [|o rest IH]; simpl in *; [reflexivity|].
  destruct (Report.is_finish_header o); [reflexivity|].
  apply andb_true_iff in Hc. destruct Hc as [Ho Hr].
  rewrite Ho. simpl. apply IH. exact Hr.
Qed.

Lemma is_finish_header_eq o :
  Report.is_finish_header o = true -> o = Report.finish_header.
Proof.
  destruct o as [t [d|] [|] | |]; simpl; try discriminate.
  intros H. apply andb_true_iff in H. destruct H as [Ht Hd].
  apply String.eqb_eq in Ht, Hd. subst. reflexivity.
Qed.

(** [headed], read on the list itself. *)
Lemma headed_block c pre b post :
  Report.headed c = true -> c = (pre ++ Report.EchoBlock b :: post)%list ->
  In Report.finish_header pre.
Proof.
  revert c. induction pre as [|o pre IH]; intros c Hc ->; simpl in *.
  - discriminate.
  - destruct (Report.is_finish_header o) eqn:Eo.
    + left. apply is_finish_header_eq. exact Eo.
    + right. apply andb_true_iff in Hc. destruct Hc as [_ Hr].
      eapply IH; [exact Hr | reflexivity].
Qed.

Lemma keeps_headed_refl s : keeps_headed s s.
Proof. intros H. exact H. Qed.

Lemma keeps_headed_trans a b c :
  keeps_headed a b -> keeps_headed b c -> keeps_headed a c.
Proof. unfold keeps_headed. auto. Qed.

Lemma keeps_headed_quiet {A} (m : Report.M A) :
  within quiet m -> within keeps_headed m.
Proof.
  intros H s Hs. destruct (H s) as [l [Hl Bl]].
  rewrite Hl. apply headed_app_quiet; assumption.
Qed.

Lemma keeps_headed_run f es :
  within keeps_headed (Report.run (Report.deferred f) es).
Proof.
  apply (within_run _ keeps_headed_refl keeps_headed_trans);
    try (intros; apply keeps_headed_quiet; quiet_prim).
  - intros. apply keeps_headed_quiet, quiet_output.
  - intros s Hs. rewrite sessionfinish_spec. cbn.
    apply headed_app_header. exact Hs.
Qed.

Lemma same_buffer_refl s : same_buffer s s.
Proof. reflexivity. Qed.

Lemma same_buffer_trans a b c :
  same_buffer a b -> same_buffer b c -> same_buffer a c.
Proof. unfold same_buffer. congruence. Qed.

(** In inline mode [output] never appends to the buffer. *)
Lemma same_buffer_inline f title state text status :
  within same_buffer (Report.output (Report.inline f) title state text status).
Proof.
  unfold Report.output, Report.echo_marker, Report.read_schr.
  cbn [Report.a_stdout_inline Report.inline negb].
  within_steps same_buffer_refl same_buffer_trans ltac:(intros ?; reflexivity).
Qed.

(** Neither does it under a filter that is [None] or empty: such a filter
    selects no state that binds [schr]. *)
Lemma same_buffer_falsy args title state text status :
  str_truthy (Report.a_stdout args) = false ->
  within same_buffer (Report.output args title state text status).
Proof.
  intros Hf s. unfold same_buffer.
  assert (Hsel : Report.stdout_selects args state = true -> state = EmptyString).
  { unfold Report.stdout_selects. unfold str_truthy in Hf.
    destruct (Report.a_stdout args) as [x|]; [|discriminate].
    apply negb_false_iff, String.eqb_eq in Hf. subst x.
    destruct state; [reflexivity | simpl; discriminate]. }
  destruct (Report.stdout_selects args state) eqn:Es.
  - specialize (Hsel eq_refl). subst state.
    unfold Report.output, Report.echo_marker. rewrite Es. cbn.
    destruct status, (Report.a_stdout_inline args), (truthy text);
      reflexivity.
  - unfold Report.output, Report.echo_marker, Report.read_schr. rewrite Es.
    rewrite andb_false_r.
    destruct status, (Report.a_stdout_inline args), (truthy text),
      (state =? "fail")%string, (state =? "pass")%string; reflexivity.
Qed.

Lemma same_buffer_run args es :
  Report.a_stdout_inline args = true \/ str_truthy (Report.a_stdout args) = false ->
  within same_buffer (Report.run args es).
Proof.
  intros H.
  apply (within_run _ same_buffer_refl same_buffer_trans);
    try (intros; intros ?; reflexivity).
  - intros. destruct H as [H|H].
    + destruct args as [f i]. simpl in H. subst i. apply same_buffer_inline.
    + apply same_buffer_falsy. exact H.
  - intros s. rewrite sessionfinish_spec. reflexivity.
Qed.

Lemma buffer_grows_refl s : buffer_grows s s.
Proof. exists []. symmetry. apply app_nil_r. Qed.

Lemma buffer_grows_trans a b c :
  buffer_grows a b -> buffer_grows b c -> buffer_grows a c.
Proof.
  intros [l1 H1] [l2 H2]. exists (l1 ++ l2)%list.
  rewrite H2, H1. symmetry. apply app_assoc.
Qed.

Lemma buffer_grows_same {A} (m : Report.M A) :
  (forall s, Report.sd_stdout (m s).2 = Report.sd_stdout s) ->
  within buffer_grows m.
Proof. intros H s. exists []. rewrite H. symmetry. apply app_nil_r. Qed.

Lemma buffer_grows_run args es : within buffer_grows (Report.run args es).
Proof.
  apply (within_run _ buffer_grows_refl buffer_grows_trans);
    try (intros; apply buffer_grows_same; intros ?; reflexivity).
  - intros. unfold Report.output, Report.echo_marker, Report.read_schr.
    within_steps buffer_grows_refl buffer_grows_trans
      ltac:(first [ apply buffer_grows_same; intros ?; reflexivity
                  | intros ?; eexists [_]; reflexivity ]).
  - apply buffer_grows_same. intros s. rewrite sessionfinish_spec. reflexivity.
Qed.

(** C8. In deferred mode, whatever the hooks called from the class
    definition on, a block on the console has the completion header
    somewhere before it; [output] puts a block it builds at the end of the
    buffer and the buffer only ever grows at its end; the last hook writes
    the header and then the buffer, first block first. In inline mode
    [output] echoes the block it builds in that very call, and the buffer is
    never written. *)
Theorem deferred_blocks_after_finish (f : option string) :
  (forall es pre b post,
     Report.sd_console (Report.run (Report.deferred f) es Report.init).2
     = (pre ++ Report.EchoBlock b :: post)%list ->
     In Report.finish_header pre) /\
  (forall title state text status s,
     In state ["pass"; "fail"] -> truthy text = true ->
     Report.stdout_selects (Report.deferred f) state = true ->
     let s' := (Report.output (Report.deferred f) title state text status s).2 in
     Report.sd_stdout s'
     = (Report.sd_stdout s ++ [Report.block_of title state text])%list /\
     Report.blocks_in (Report.sd_console s')
     = Report.blocks_in (Report.sd_console s)) /\
  (forall es s, exists l,
     Report.sd_stdout (Report.run (Report.deferred f) es s).2
     = (Report.sd_stdout s ++ l)%list) /\
  (forall es,
     let s := (Report.run (Report.deferred f) es Report.init).2 in
     Report.pytest_sessionfinish (Report.deferred f) s
     = (inr tt,
        Report.set_console
          (Report.sd_console s ++
           Report.finish_header :: map Report.EchoBlock (Report.sd_stdout s))
          s)) /\
  (forall title state text status s,
     In state ["pass"; "fail"] -> truthy text = true ->
     Report.stdout_selects (Report.inline f) state = true ->
     Report.sd_console
       (Report.output (Report.inline f) title state text status s).2
     = (Report.sd_console s
        ++ [Report.EchoBlock (Report.block_of title state text)])%list) /\
  (forall es s,
     Report.sd_stdout (Report.run (Report.inline f) es s).2
     = Report.sd_stdout s).
Proof.
  repeat apply conj.
  - intros es pre b post E.
    eapply headed_block; [ | exact E ].
    apply (keeps_headed_run f es Report.init). reflexivity.
  - intros title state text status s Hst Ht Hsel s'. subst s'.
    rewrite (output_spec _ _ _ _ _ _ Hst), Ht, Hsel. cbn.
    split; [reflexivity|].
    rewrite app_nil_r, blocks_in_app.
    destruct status; cbn; rewrite app_nil_r; reflexivity.
  - intros es s. apply (buffer_grows_run (Report.deferred f) es s).
  - intros es s. rewrite sessionfinish_spec. cbn [Report.a_stdout Report.deferred].
    destruct (str_truthy f) eqn:Ef; [reflexivity|].
    assert (Hb : Report.sd_stdout s = []).
    { apply (same_buffer_run (Report.deferred f) es (or_intror Ef) Report.init). }
    rewrite Hb. reflexivity.
  - intros title state text status s Hst Ht Hsel.
    rewrite (output_spec _ _ _ _ _ _ Hst), Ht, Hsel. cbn.
    rewrite andb_false_r. reflexivity.
  - intros es s.
    apply (same_buffer_run (Report.inline f) es (or_introl eq_refl) s).
Qed.

(** ** Three tests under the filter 'fail' *)

(** Running a computation on a state given by name: unfold the monad,
    settle the dictionary lookups, split on the tests that remain. *)
Ltac monad_unfold :=
  unfold Report.bind, Report.ret, Report.raise, Report.when_, Report.get,
    Report.echo, Report.stdout_append, Report.state_set, Report.tests_file_set,
    Report.tests_test_flag, Report.tests_test_put, Report.tests_test_get,
    Report.bind, Report.ret, Report.set_console, Report.set_stdout;
  cbn [Report.sd_state Report.sd_stdout Report.sd_tests_file
       Report.sd_tests_test Report.sd_report_stats Report.sd_console
       fst snd negb].

Lemma has_key_insert {V} (k : string) (v : V) (d : gmap string V) :
  has_key k (<[k := v]> d) = true.
Proof. unfold has_key. rewrite lookup_insert_eq. reflexivity. Qed.

Lemma has_key_insert_ne {V} (k k' : string) (v : V) (d : gmap string V) :
  k' <> k -> has_key k (<[k' := v]> d) = has_key k d.
Proof. intros H. unfold has_key. rewrite lookup_insert_ne by exact H. reflexivity. Qed.

Lemma has_key_empty {V} (k : string) : has_key k (∅ : gmap string V) = false.
Proof. unfold has_key. rewrite lookup_empty. reflexivity. Qed.

Lemma has_key_some {V} (k : string) (d : gmap string V) :
  has_key k d = true -> exists v, d !! k = Some v.
Proof. unfold has_key. destruct (d !! k); [eauto | discriminate]. Qed.

Lemma blocks_in_echo c t d n :
  Report.blocks_in (c ++ [Report.Echo t d n]) = Report.blocks_in c.
Proof. rewrite blocks_in_app. simpl. apply app_nil_r. Qed.

Ltac monad_step :=
  first
    [ progress monad_unfold
    | progress cbv beta iota
    | rewrite lookup_insert_eq
    | rewrite has_key_insert
    | match goal with
      | H : has_key ?k ?m = true |- context [?m !! ?k] =>
          let d := fresh "d" in
          let Hd := fresh "Hd" in
          destruct (has_key_some _ _ H) as [d Hd]; rewrite Hd
      | H : ?m !! ?k = Some _ |- context [?m !! ?k] => rewrite H
      | |- context [if negb ?b then _ else _] => destruct b eqn:?; cbn [negb]
      | |- context [if ?b then _ else _] => destruct b eqn:?
      end ].

Ltac monad_run := repeat monad_step.

(** A status call for a phase other than teardown registers the node and
    writes labels only. *)
Lemma status_registers args id w o secs lr s file test :
  split_sep id = Some (file, test) ->
  (w =? "teardown")%string = false ->
  exists s',
    Report.pytest_report_teststatus args
      (Report.pytest_report id w o secs lr) s = (inr (Some o), s') /\
    has_key id (Report.sd_tests_test s') = true /\
    Report.sd_stdout s' = Report.sd_stdout s /\
    Report.blocks_in (Report.sd_console s')
    = Report.blocks_in (Report.sd_console s).
Proof.
  intros Hsplit Hw.
  unfold Report.pytest_report_teststatus, Report.pytest_report.
  cbn [Report.nodeid Report.when Report.outcome Report.failed].
  rewrite Hsplit, Hw.
  monad_run;
  eexists; (split; [reflexivity|]);
  cbn [Report.sd_tests_test Report.sd_stdout Report.sd_console];
  rewrite ?has_key_insert, ?blocks_in_echo;
  auto.
Qed.

(** The log report of a call that printed [text], under the filter 'fail':
    a block with the text for a failed call and for no other, and after it
    the block of the crash when the report carries one. *)
Lemma logreport_reported args id o text lr s :
  has_key id (Report.sd_tests_test s) = true ->
  Report.a_stdout args = Some "fail" ->
  (text =? EmptyString)%string = false ->
  In o ["passed"; "failed"; "skipped"] ->
  let new :=
    ((if (o =? "failed")%string
      then [Report.block_of id "fail" (PyStr text)] else [])
     ++ crash_blocks id lr)%list in
  exists s',
    Report.pytest_runtest_logreport args
      (Report.pytest_report id "call" o [("Captured stdout call", text)] lr)
      s = (inr tt, s') /\
    Report.sd_stdout s'
    = (Report.sd_stdout s
       ++ if Report.a_stdout_inline args then [] else new)%list /\
    Report.blocks_in (Report.sd_console s')
    = (Report.blocks_in (Report.sd_console s)
       ++ if Report.a_stdout_inline args then new else [])%list.
Proof.
  intros Hid Hf Ht Ho new. subst new.
  destruct (has_key_some _ _ Hid) as [d Hd].
  unfold Report.pytest_runtest_logreport, Report.pytest_report, crash_blocks.
  cbn [Report.nodeid Report.when Report.sections Report.longrepr
       Report.logreport_sections].
  unfold Report.logreport_section, Report.report_state.
  cbn [Report.nodeid Report.when Report.failed Report.passed Report.skipped].
  destruct (reprcrash lr) as [crash|];
    [ assert (Hne : (("error: " ++ crash) =? EmptyString)%string = false)
        by reflexivity | ];
    destruct Ho as [<- | [<- | [<- | []]]];
    cbn [String.eqb Ascii.eqb Bool.eqb negb];
    unfold Report.output, Report.echo_marker, Report.read_schr,
      Report.stdout_selects, truthy, Report.block_of, Report.glyph, py_str;
    rewrite Hf, Ht, ?Hne;
    cbn [String.eqb Ascii.eqb Bool.eqb negb andb orb];
    monad_run;
    eexists; (split; [reflexivity|]);
    cbn [Report.sd_tests_test Report.sd_stdout Report.sd_console];
    rewrite ?blocks_in_app; cbn [Report.blocks_in app];
    rewrite ?app_nil_r, <- ?app_assoc; auto.
Qed.

Lemma run_app args es1 es2 s :
  Report.run args (es1 ++ es2) s
  = match Report.run args es1 s with
    | (inl e, s') => (inl e, s')
    | (inr _, s') => Report.run args es2 s'
    end.
Proof.
  revert s. induction es1 as [|e rest IH]; intros s; simpl.
  - reflexivity.
  - unfold Report.bind. destruct (Report.hook args e s) as [[x|[]] s1].
    + reflexivity.
    + apply IH.
Qed.

Lemma reported_call_blocks args id o text lr s :
  well_formed id = true ->
  Report.a_stdout args = Some "fail" ->
  truthy (PyStr text) = true ->
  In o ["passed"; "failed"; "skipped"] ->
  let new :=
    ((if (o =? "failed")%string
      then [Report.block_of id "fail" (PyStr text)] else [])
     ++ crash_blocks id lr)%list in
  exists s',
    Report.run args (reported_call id o text lr) s = (inr tt, s') /\
    Report.sd_stdout s'
    = (Report.sd_stdout s
       ++ if Report.a_stdout_inline args then [] else new)%list /\
    Report.blocks_in (Report.sd_console s')
    = (Report.blocks_in (Report.sd_console s)
       ++ if Report.a_stdout_inline args then new else [])%list.
Proof.
  intros Hwf Hf Ht Ho new.
  unfold well_formed in Hwf.
  destruct (split_sep id) as [[file test]|] eqn:Hsplit; [|discriminate].
  apply negb_true_iff in Ht.
  destruct (status_registers args id "call" o
              [("Captured stdout call", text)] lr s file test
              Hsplit eq_refl) as [s1 [E1 [K1 [B1 C1]]]].
  destruct (logreport_reported args id o text lr s1 K1 Hf Ht Ho)
    as [s2 [E2 [B2 C2]]].
  exists s2. unfold reported_call, Report.phase.
  cbn [Report.run Report.hook]. unfold Report.bind.
  rewrite E1. cbn [Report.ret]. rewrite E2.
  split; [reflexivity|]. rewrite B2, C2, B1, C1. split; reflexivity.
Qed.

(** The blocks that three printing calls leave on the console once the
    session has finished, under the filter 'fail'. *)
Lemma three_reports_blocks
    (inline_mode : bool) (n1 n2 n3 t1 t2 t3 : string) (lr2 : pyval)
    (reason : string) :
  well_formed n1 = true -> well_formed n2 = true -> well_formed n3 = true ->
  truthy (PyStr t1) = true -> truthy (PyStr t2) = true ->
  truthy (PyStr t3) = true ->
  let args := {| Report.a_stdout := Some "fail";
                 Report.a_stdout_inline := inline_mode |} in
  exists s',
    Report.run args (three_reports n1 n2 n3 t1 t2 t3 lr2 reason) Report.init
    = (inr tt, s') /\
    Report.blocks_in (Report.sd_console s')
    = {| Report.b_schr := "FF"; Report.b_title := n2;
         Report.b_state := "fail"; Report.b_text := t2 |}
      :: match reprcrash lr2 with
         | Some crash =>
             [ {| Report.b_schr := "FF"; Report.b_title := n2;
                  Report.b_state := "fail";
                  Report.b_text := ("error: " ++ crash)%string |} ]
         | None => []
         end.
Proof.
  intros W1 W2 W3 T1 T2 T3 args.
  assert (Hf : Report.a_stdout args = Some "fail") by reflexivity.
  destruct (reported_call_blocks args n1 "passed" t1 PyNone Report.init
              W1 Hf T1) as [s1 [E1 [B1 C1]]]; [simpl; auto|].
  destruct (reported_call_blocks args n2 "failed" t2 lr2 s1 W2 Hf T2)
    as [s2 [E2 [B2 C2]]]; [simpl; auto|].
  destruct (reported_call_blocks args n3 "skipped" t3 (PyRepr reason None)
              s2 W3 Hf T3) as [s3 [E3 [B3 C3]]]; [simpl; auto|].
  unfold three_reports.
  rewrite run_app, E1, run_app, E2, run_app, E3.
  cbn [Report.run Report.hook]. unfold Report.bind.
  rewrite sessionfinish_spec. cbn [Report.ret].
  eexists. split; [reflexivity|].
  cbn [Report.sd_console Report.set_console Report.a_stdout args str_truthy
       String.eqb negb].
  rewrite blocks_in_app. cbn [Report.blocks_in]. rewrite blocks_in_map.
  rewrite C3, C2, C1, B3, B2, B1.
  unfold crash_blocks.
  cbn [Report.a_stdout_inline args String.eqb Ascii.eqb Bool.eqb
       Report.init Report.sd_stdout Report.sd_console Report.blocks_in
       reprcrash app].
  destruct inline_mode, (reprcrash lr2); reflexivity.
Qed.

(** Under the filter 'fail' every block is the block of a failed result,
    whatever the hooks are called with. *)

Lemma only_fail_refl s : only_fail s s.
Proof. intros H. exact H. Qed.

Lemma only_fail_trans a b c : only_fail a b -> only_fail b c -> only_fail a c.
Proof. unfold only_fail. auto. Qed.

Lemma only_fail_same {A} (m : Report.M A) :
  (forall s, Report.blocks_in (Report.sd_console (m s).2)
             = Report.blocks_in (Report.sd_console s)
             /\ Report.sd_stdout (m s).2 = Report.sd_stdout s) ->
  within only_fail m.
Proof.
  intros H s. unfold only_fail, fail_blocks.
  destruct (H s) as [-> ->]. auto.
Qed.

Lemma only_fail_output args title state text status :
  Report.a_stdout args = Some "fail" ->
  within only_fail (Report.output args title state text status).
Proof.
  intros Hf s.
  destruct (state =? "fail")%string eqn:Efail.
  - apply String.eqb_eq in Efail. subst state.
    rewrite (output_spec args title "fail" text status s)
      by (simpl; auto).
    unfold only_fail, fail_blocks.
    cbn [snd Report.set_stdout Report.set_console Report.sd_console
         Report.sd_stdout].
    rewrite !blocks_in_app, !forallb_app.
    intros H. apply andb_true_iff in H. destruct H as [H1 H2].
    rewrite H1, H2.
    destruct status, (Report.a_stdout_inline args), (truthy text),
      (Report.stdout_selects args "fail"); reflexivity.
  - apply only_fail_same. clear s. intros s.
    unfold Report.output, Report.echo_marker, Report.read_schr,
      Report.stdout_selects.
    rewrite Hf, Efail.
    replace ("fail" =? state)%string with false
      by (symmetry; rewrite String.eqb_sym; exact Efail).
    cbn [String.eqb Ascii.eqb Bool.eqb orb].
    rewrite andb_false_r.
    destruct status, (Report.a_stdout_inline args), (truthy text),
      (state =? "pass")%string;
      monad_unfold; cbn [fst snd Report.sd_console Report.sd_stdout];
      rewrite ?blocks_in_echo, ?blocks_in_app; cbn [Report.blocks_in];
      rewrite ?app_nil_r; split; reflexivity.
Qed.

Lemma only_fail_finish args :
  within only_fail (Report.pytest_sessionfinish args).
Proof.
  intros s. rewrite sessionfinish_spec. unfold only_fail, fail_blocks.
  cbn [snd Report.set_console Report.sd_console Report.sd_stdout].
  rewrite blocks_in_app, forallb_app.
  cbn [Report.blocks_in Report.finish_header].
  intros H. apply andb_true_iff in H. destruct H as [H1 H2].
  rewrite H1, H2.
  destruct (str_truthy (Report.a_stdout args)).
  - rewrite blocks_in_map, H2. reflexivity.
  - reflexivity.
Qed.

Lemma only_fail_run args es :
  Report.a_stdout args = Some "fail" ->
  within only_fail (Report.run args es).
Proof.
  intros Hf.
  apply (within_run only_fail only_fail_refl only_fail_trans args).
  - intros t d n. apply only_fail_same. intros s. unfold Report.echo.
    cbn [snd Report.sd_console Report.sd_stdout].
    rewrite blocks_in_echo. split; reflexivity.
  - intros k. apply only_fail_same. intros s. split; reflexivity.
  - intros k. apply only_fail_same. intros s. split; reflexivity.
  - intros k d. apply only_fail_same. intros s. split; reflexivity.
  - intros title state text status. apply only_fail_output. exact Hf.
  - apply only_fail_finish.
Qed.

(** C7 fails as soon as the failed report is one that pytest builds: it
    carries a [reprcrash], and lines 286-296 add a second block for the
    failing test, 'error: ' and the crash, after the block with its captured
    text. Three calls that print, one passing, one failing with a crash, one
    skipped, under the filter 'fail': the console ends with two blocks, in
    deferred mode and in inline mode. *)
Lemma filter_fail_crash_second_block :
  let es := three_reports "f.py::a" "f.py::b" "f.py::c" "one" "two" "three"
              (PyRepr "trace" (Some "f.py:4: boom")) "not today" in
  let blocks :=
    [ {| Report.b_schr := "FF"; Report.b_title := "f.py::b";
         Report.b_state := "fail"; Report.b_text := "two" |};
      {| Report.b_schr := "FF"; Report.b_title := "f.py::b";
         Report.b_state := "fail";
         Report.b_text := "error: f.py:4: boom" |} ] in
  Report.blocks_in
    (Report.sd_console
       (Report.run (Report.deferred (Some "fail")) es Report.init).2)
  = blocks /\
  Report.blocks_in
    (Report.sd_console
       (Report.run (Report.inline (Some "fail")) es Report.init).2)
  = blocks.
Proof.
  intros es blocks. subst es blocks.
  destruct (three_reports_blocks false "f.py::a" "f.py::b" "f.py::c"
              "one" "two" "three" (PyRepr "trace" (Some "f.py:4: boom"))
              "not today" eq_refl eq_refl eq_refl eq_refl eq_refl eq_refl)
    as [sd [Ed Bd]].
  destruct (three_reports_blocks true "f.py::a" "f.py::b" "f.py::c"
              "one" "two" "three" (PyRepr "trace" (Some "f.py:4: boom"))
              "not today" eq_refl eq_refl eq_refl eq_refl eq_refl eq_refl)
    as [si [Ei Bi]].
  unfold Report.deferred, Report.inline. rewrite Ed, Ei.
  split; [exact Bd | exact Bi].
Qed.

(** C7, amended. Under the filter 'fail', in either mode, every block that
    reaches the console is a block of a failed result, whatever calls the
    hooks receive. And when three tests print during their call, the first
    passing, the second failing, the third skipped, and the session
    finishes: no hook raises, and the console holds the blocks of the
    failing test and no other, first the block with what it printed, then,
    when its report carries a crash, one block with 'error: ' and the
    crash. *)
Theorem filter_fail_failing_node_blocks
    (inline_mode : bool) (n1 n2 n3 t1 t2 t3 : string) (lr2 : pyval)
    (reason : string) :
  well_formed n1 = true -> well_formed n2 = true -> well_formed n3 = true ->
  truthy (PyStr t1) = true -> truthy (PyStr t2) = true ->
  truthy (PyStr t3) = true ->
  let args := {| Report.a_stdout := Some "fail";
                 Report.a_stdout_inline := inline_mode |} in
  (forall es,
     forallb is_fail_block
       (Report.blocks_in (Report.sd_console (Report.run args es Report.init).2))
     = true) /\
  exists s',
    Report.run args (three_reports n1 n2 n3 t1 t2 t3 lr2 reason) Report.init
    = (inr tt, s') /\
    Report.blocks_in (Report.sd_console s')
    = {| Report.b_schr := "FF"; Report.b_title := n2;
         Report.b_state := "fail"; Report.b_text := t2 |}
      :: match reprcrash lr2 with
         | Some crash =>
             [ {| Report.b_schr := "FF"; Report.b_title := n2;
                  Report.b_state := "fail";
                  Report.b_text := ("error: " ++ crash)%string |} ]
         | None => []
         end.
Proof.
  intros W1 W2 W3 T1 T2 T3 args. split.
  - intros es.
    pose proof (only_fail_run args es eq_refl Report.init eq_refl) as H.
    unfold fail_blocks in H. apply andb_true_iff in H. exact (proj1 H).
  - apply three_reports_blocks; assumption.
Qed.

Lemma filter_fail_failing_node_blocks_witness :
  exists s',
    Report.run (Report.inline (Some "fail"))
      (three_reports "f.py::a" "f.py::b" "f.py::c" "one" "two" "three"
         (PyRepr "trace" (Some "f.py:4: boom")) "not today")
      Report.init
    = (inr tt, s') /\
    Report.blocks_in (Report.sd_console s')
    = [ {| Report.b_schr := "FF"; Report.b_title := "f.py::b";
           Report.b_state := "fail"; Report.b_text := "two" |};
        {| Report.b_schr := "FF"; Report.b_title := "f.py::b";
           Report.b_state := "fail";
           Report.b_text := "error: f.py:4: boom" |} ].
Proof.
  pose proof (filter_fail_failing_node_blocks true "f.py::a" "f.py::b"
                "f.py::c" "one" "two" "three"
                (PyRepr "trace" (Some "f.py:4: boom")) "not today"
                eq_refl eq_refl eq_refl eq_refl eq_refl eq_refl) as [_ H].
  exact H.
Defined.

(** ** The marker *)

(** Running hooks from the class definition: the dictionaries start empty,
    so every lookup is settled by the writes made before it. *)
Ltac run_from_init :=
  repeat first [ rewrite has_key_empty
               | rewrite has_key_insert_ne by discriminate
               | monad_step ].

(** The markers of a test whose call printed [text], when the filter does
    not select its outcome: one marker in deferred mode, none in inline
    mode. No block either way. *)
Lemma reported_test_markers args id o st text lr :
  well_formed id = true ->
  truthy (PyStr text) = true ->
  (o = "passed" /\ st = "pass" /\ lr = PyNone)
  \/ (o = "failed" /\ st = "fail") ->
  Report.stdout_selects args st = false ->
  let r := Report.run args (reported_test id o text lr) Report.init in
  r.1 = inr tt /\
  Report.markers_of id (Report.sd_console r.2)
  = (if Report.a_stdout_inline args then []
     else [Report.EchoMarker (Report.glyph st) st id]) /\
  Report.blocks_in (Report.sd_console r.2) = [].
Proof.
  intros Hwf Ht Hcase Hsel r. subst r.
  unfold well_formed in Hwf.
  destruct (split_sep id) as [[file test]|] eqn:Hsplit; [|discriminate].
  unfold truthy in Ht.
  assert (Hne : forall crash,
             negb (("error: " ++ crash) =? EmptyString)%string = true)
    by reflexivity.
  unfold reported_test, reported_call, Report.phase.
  cbn [app Report.run Report.hook].
  unfold Report.pytest_report_teststatus, Report.pytest_runtest_logreport,
    Report.pytest_report.
  cbn [Report.nodeid Report.when Report.outcome Report.failed Report.passed
       Report.skipped Report.sections Report.longrepr
       Report.logreport_sections].
  unfold Report.logreport_section, Report.report_state.
  cbn [Report.nodeid Report.when Report.outcome Report.failed Report.passed
       Report.skipped Report.sections Report.longrepr].
  rewrite Hsplit.
  destruct Hcase as [(-> & -> & ->) | (-> & ->)];
    cbn [String.eqb Ascii.eqb Bool.eqb negb reprcrash];
    unfold Report.output, Report.echo_marker, Report.read_schr, truthy,
      Report.glyph;
    cbn [String.eqb Ascii.eqb Bool.eqb negb];
    rewrite Hsel, Ht;
    unfold Report.init;
    destruct (Report.a_stdout_inline args) eqn:Hi;
    try (destruct (reprcrash lr) as [crash|] eqn:Hc);
    rewrite ?Hne; cbn [andb negb];
    run_from_init;
    cbn [fst snd Report.sd_console app Report.markers_of List.filter
         Report.is_marker_of Report.blocks_in];
    rewrite ?String.eqb_refl;
    repeat split; reflexivity.
Qed.

(** C4. In inline mode the marker is lost whenever the result has captured
    text that the filter does not select. [output] is called with
    [status=True] (line 283), and line 173 lets the marker through only
    when there is no text: the call writes nothing at all. So for a test
    that prints during its call and passes (under the filter 'fail', the
    default, or 'skip' or 'none'), or that fails (under 'pass', 'skip' or
    'none'), the three phases run without an exception and leave neither a
    marker nor a block for the test on the console: the result of the test
    is not shown. The same calls in deferred mode echo the marker of the
    result. *)
Theorem inline_printed_result_unmarked
    (f : option string) (id o st text : string) (lr : pyval) :
  well_formed id = true ->
  truthy (PyStr text) = true ->
  (o = "passed" /\ st = "pass" /\ lr = PyNone)
  \/ (o = "failed" /\ st = "fail") ->
  Report.stdout_selects (Report.inline f) st = false ->
  let ri := Report.run (Report.inline f) (reported_test id o text lr)
              Report.init in
  let rd := Report.run (Report.deferred f) (reported_test id o text lr)
              Report.init in
  (forall title s,
     Report.output (Report.inline f) title st (PyStr text) true s
     = (inr tt, s)) /\
  ri.1 = inr tt /\
  Report.markers_of id (Report.sd_console ri.2) = [] /\
  Report.blocks_in (Report.sd_console ri.2) = [] /\
  rd.1 = inr tt /\
  Report.markers_of id (Report.sd_console rd.2)
  = [Report.EchoMarker (Report.glyph st) st id].
Proof.
  intros Hwf Ht Hcase Hsel ri rd. subst ri rd.
  split.
  - intros title s.
    assert (Hin : In st ["pass"; "fail"])
      by (destruct Hcase as [(_ & -> & _) | (_ & ->)]; simpl; auto).
    rewrite (output_spec _ _ _ _ _ _ Hin), Hsel, Ht.
    cbn [Report.a_stdout_inline Report.inline andb negb orb app].
    unfold Report.set_stdout, Report.set_console.
    cbn [Report.sd_state Report.sd_stdout Report.sd_tests_file
         Report.sd_tests_test Report.sd_report_stats Report.sd_console].
    rewrite !app_nil_r. destruct s; reflexivity.
  - destruct (reported_test_markers (Report.inline f) id o st text lr
                Hwf Ht Hcase Hsel) as [Ri [Mi Bi]].
    destruct (reported_test_markers (Report.deferred f) id o st text lr
                Hwf Ht Hcase Hsel) as [Rd [Md _]].
    repeat split; assumption.
Qed.

(** C4 at a failing test under the filter 'none': inline, no marker for it;
    deferred, the marker of the failure. *)
Lemma inline_printed_result_unmarked_witness :
  Report.markers_of "a.py::t"
    (Report.sd_console
       (Report.run (Report.inline (Some "none"))
          (reported_test "a.py::t" "failed" "hello"
             (PyRepr "trace" (Some "a.py:3: boom")))
          Report.init).2)
  = [] /\
  Report.markers_of "a.py::t"
    (Report.sd_console
       (Report.run (Report.deferred (Some "none"))
          (reported_test "a.py::t" "failed" "hello"
             (PyRepr "trace" (Some "a.py:3: boom")))
          Report.init).2)
  = [Report.EchoMarker "FF" "fail" "a.py::t"].
Proof.
  pose proof (inline_printed_result_unmarked (Some "none") "a.py::t" "failed"
                "fail" "hello" (PyRepr "trace" (Some "a.py:3: boom"))
                eq_refl eq_refl (or_intror (conj eq_refl eq_refl)) eq_refl)
    as [_ [_ [Hi [_ [_ Hd]]]]].
  split; [exact Hi | exact Hd].
Defined.

(** ** Skipped results *)




(** ** Ids without a separator *)

(** [split_sep] finds the separator when there is one. *)
Lemma split_sep_found (a b : string) : split_sep (a ++ "::" ++ b) <> None.
Proof.
  induction a as [|c a IH]; simpl.
  - discriminate.
  - destruct (split_sep (a ++ "::" ++ b)) as [[x y]|]; [|contradiction].
    destruct (a ++ "::" ++ b)%string as [|c' r']; [discriminate|].
    destruct (Ascii.eqb c colon && Ascii.eqb c' colon); discriminate.
Qed.

(** What [split_sep] returns is a splitting at a separator. *)
Lemma split_sep_sound (s a b : string) :
  split_sep s = Some (a, b) -> s = (a ++ "::" ++ b)%string.
Proof.
  revert a b. induction s as [|c s IH]; intros a b; simpl; [discriminate|].
  destruct s as [|c' s'].
  - simpl. discriminate.
  - destruct (Ascii.eqb c colon && Ascii.eqb c' colon) eqn:E.
    + intros H. injection H as <- <-.
      apply andb_true_iff in E. destruct E as [E1 E2].
      apply Ascii.eqb_eq in E1, E2. subst. reflexivity.
    + destruct (split_sep (String c' s')) as [[x y]|] eqn:Es; [|discriminate].
      intros H. injection H as <- <-.
      rewrite (IH x y eq_refl). reflexivity.
Qed.

(** [well_formed] says that the id has a separator somewhere. *)
Lemma well_formed_separator (id : string) :
  well_formed id = true <-> exists a b, id = (a ++ "::" ++ b)%string.
Proof.
  unfold well_formed. split.
  - destruct (split_sep id) as [[a b]|] eqn:E; [|discriminate].
    intros _. exists a, b. apply split_sep_sound. exact E.
  - intros [a [b ->]].
    destruct (split_sep (a ++ "::" ++ b)) eqn:E; [reflexivity|].
    exfalso. exact (split_sep_found a b E).
Qed.

(** C9 fails: a teardown status report whose id has no separator gets no
    terminal marker, no in-progress label and no registration; the hook
    returns [None] and has done nothing. With a separator the same report
    is registered, labelled and marked. *)
Lemma malformed_status_no_marker :
  Report.pytest_report_teststatus (Report.deferred (Some "fail"))
    Report.malformed_teardown Report.init
  = (inr None, Report.init) /\
  Report.sd_console
    (Report.pytest_report_teststatus (Report.deferred (Some "fail"))
       (Report.pytest_report "a.py::t" "teardown" "passed" [] PyNone)
       Report.init).2
  = [Report.Echo "Running individual tests..." (Some "step-min") true;
     Report.Echo "a.py" (Some "item-maj") true;
     Report.Echo "t" (Some "item-min") false;
     Report.EchoMarker "PP" "pass" "a.py::t"].
Proof. split; vm_compute; reflexivity. Qed.

(** C9, amended. A status report whose id has no separator is skipped as
    a whole: the hook returns [None] without raising and leaves every
    dictionary, the buffer and the console as they were. *)
Theorem malformed_status_skipped
    (args : Report.args_t) (r : Report.report) (s : Report.agg) :
  well_formed (Report.nodeid r) = false ->
  Report.pytest_report_teststatus args r s = (inr None, s).
Proof.
  unfold well_formed, Report.pytest_report_teststatus.
  destruct (split_sep (Report.nodeid r)) as [[file test]|].
  - discriminate.
  - reflexivity.
Qed.

Lemma malformed_status_skipped_witness :
  well_formed (Report.nodeid Report.malformed_teardown) = false /\
  Report.pytest_report_teststatus (Report.inline (Some "all"))
    Report.malformed_teardown Report.init
  = (inr None, Report.init).
Proof.
  split; [reflexivity|].
  apply (malformed_status_skipped (Report.inline (Some "all"))
           Report.malformed_teardown Report.init).
  reflexivity.
Defined.

(** ** Registration *)

(** C3 fails for the log hook. A crash report for an id that no status
    call has registered raises [KeyError] at line 289, whatever the options;
    the status hook, given the same report, registers the id. *)
Theorem logreport_unregistered_keyerror (args : Report.args_t) :
  Report.pytest_runtest_logreport args Report.unannounced_crash Report.init
  = (inl (Report.KeyError "a.py::t"), Report.init) /\
  Report.sd_tests_test
    (Report.pytest_report_teststatus args Report.unannounced_crash
       Report.init).2 !! "a.py::t"
  = Some {[ "fail" := true ]}.
Proof.
  split.
  - reflexivity.
  - destruct args as [f [|]]; vm_compute; reflexivity.
Qed.

(** ** One marker for each test *)

(** C1 fails on a test whose call passes in silence and whose teardown
    crashes: the teardown status call echoes the pass marker without
    setting 'tested', and the crash in the log report that follows echoes
    the fail marker. *)
Theorem teardown_crash_two_markers :
  let r := Report.run (Report.deferred (Some "fail")) Report.teardown_crash
             Report.init in
  r.1 = inr tt /\
  Report.markers_of "a.py::t" (Report.sd_console r.2)
  = [Report.EchoMarker "PP" "pass" "a.py::t";
     Report.EchoMarker "FF" "fail" "a.py::t"].
Proof. split; vm_compute; reflexivity. Qed.

(** * Splitting test selectors *)

Lemma no_space_app (a b : string) :
  no_space (a ++ b) = no_space a && no_space b.
Proof.
  induction a as [|c a IH]; simpl; [reflexivity|].
  rewrite IH. apply andb_assoc.
Qed.

Lemma is_empty_app_char (w : string) (c : ascii) :
  is_empty (w ++ String c EmptyString) = false.
Proof. destruct w; reflexivity. Qed.

Lemma string_app_assoc (a b c : string) :
  ((a ++ b) ++ c = a ++ (b ++ c))%string.
Proof.
  induction a as [|x a IH]; [reflexivity|].
  change (String x ((a ++ b) ++ c) = String x (a ++ (b ++ c)))%string.
  rewrite IH. reflexivity.
Qed.

Lemma string_app_empty (a : string) : (a ++ EmptyString)%string = a.
Proof.
  induction a as [|x a IH]; [reflexivity|].
  change (String x (a ++ EmptyString) = String x a)%string.
  rewrite IH. reflexivity.
Qed.

Lemma split_words_are_words (w s : string) :
  no_space w = true ->
  Forall (fun t => is_word t = true) (split_words w s).
Proof.
  revert w. induction s as [|c s IH]; intros w Hw; simpl.
  - destruct (is_empty w) eqn:E; constructor; [|constructor].
    unfold is_word. rewrite E, Hw. reflexivity.
  - destruct (isspace c) eqn:Ec.
    + destruct (is_empty w) eqn:E.
      * apply IH. reflexivity.
      * constructor; [|apply IH; reflexivity].
        unfold is_word. rewrite E, Hw. reflexivity.
    + apply IH. rewrite no_space_app, Hw. simpl. rewrite Ec. reflexivity.
Qed.

(** A text without separator, added to the word being read, ends it. *)
Lemma split_words_no_space (w s : string) :
  no_space s = true ->
  split_words w s = if is_empty (w ++ s) then [] else [(w ++ s)%string].
Proof.
  revert w. induction s as [|c s IH]; intros w Hs; simpl in *.
  - rewrite string_app_empty. reflexivity.
  - apply andb_true_iff in Hs. destruct Hs as [Hc Hs].
    apply negb_true_iff in Hc. rewrite Hc.
    rewrite (IH _ Hs), string_app_assoc. reflexivity.
Qed.

(** A separator cuts the scan in two. *)
Lemma split_words_cut (w a b : string) (c : ascii) :
  isspace c = true ->
  split_words w (a ++ String c b)
  = (split_words w a ++ py_split b)%list.
Proof.
  intros Hc. revert w. induction a as [|x a IH]; intros w; simpl.
  - rewrite Hc. unfold py_split. destruct (is_empty w); reflexivity.
  - destruct (isspace x).
    + destruct (is_empty w); simpl; rewrite IH; reflexivity.
    + apply IH.
Qed.

(** X1. Every string that [py_split] returns is a word: it is not empty
    and holds no separator; a text made of separators only, or empty, gives
    no word at all. *)
Theorem py_split_words (s : string) :
  Forall (fun w => is_word w = true) (py_split s) /\
  (forallb isspace (list_ascii_of_string s) = true -> py_split s = []).
Proof.
  split.
  - apply split_words_are_words. reflexivity.
  - unfold py_split. induction s as [|c s IH]; simpl; [reflexivity|].
    intros H. apply andb_true_iff in H. destruct H as [Hc Hs].
    rewrite Hc. apply IH. exact Hs.
Qed.

(** X2. A separator between two texts splits them apart: the words of the
    whole are the words of the left part followed by the words of the right
    part. *)
Theorem py_split_cut (a b : string) (c : ascii) :
  isspace c = true ->
  py_split (a ++ String c b) = (py_split a ++ py_split b)%list.
Proof. intros Hc. apply split_words_cut. exact Hc. Qed.

Lemma py_split_cut_witness :
  isspace " "%char = true /\
  py_split ("a.py" ++ String " "%char " b.py")
  = (py_split "a.py" ++ py_split " b.py")%list.
Proof.
  split; [reflexivity|].
  apply (py_split_cut "a.py" " b.py" " "%char). reflexivity.
Defined.

Lemma py_split_word (w : string) : is_word w = true -> py_split w = [w].
Proof.
  unfold is_word. intros H. apply andb_true_iff in H. destruct H as [He Hn].
  unfold py_split. rewrite (split_words_no_space _ _ Hn).
  change (EmptyString ++ w)%string with w.
  apply negb_true_iff in He. rewrite He. reflexivity.
Qed.

(** X3. Joining words with blanks and splitting the result gives the words
    back. *)
Theorem py_split_join (ws : list string) :
  forallb is_word ws = true -> py_split (join_blank ws) = ws.
Proof.
  induction ws as [|w rest IH]; intros H; [reflexivity|].
  simpl in H. apply andb_true_iff in H. destruct H as [Hw Hr].
  destruct rest as [|w' rest'].
  - simpl. apply py_split_word. exact Hw.
  - change (join_blank (w :: w' :: rest'))
      with (w ++ String " "%char (join_blank (w' :: rest')))%string.
    unfold py_split at 1. rewrite split_words_cut by reflexivity.
    fold (py_split w).
    rewrite (py_split_word _ Hw), (IH Hr). reflexivity.
Qed.

Lemma py_split_join_witness :
  forallb is_word ["a.py"; "b.py::t"; "-k"] = true /\
  py_split (join_blank ["a.py"; "b.py::t"; "-k"]) = ["a.py"; "b.py::t"; "-k"].
Proof.
  split; [reflexivity|].
  apply (py_split_join ["a.py"; "b.py::t"; "-k"]). reflexivity.
Defined.

(** * The options given to pytest *)

Lemma fold_left_snoc {A} (l acc : list A) :
  fold_left (fun o x => (o ++ [x])%list) l acc = (acc ++ l)%list.
Proof.
  revert acc. induction l as [|x l IH]; intros acc; simpl.
  - symmetry. apply app_nil_r.
  - rewrite IH, <- app_assoc. reflexivity.
Qed.

Lemma fold_left_extend {A B} (f : A -> list B) (l : list A) (acc : list B) :
  fold_left (fun o x => (o ++ f x)%list) l acc = (acc ++ flat_map f l)%list.
Proof.
  revert acc. induction l as [|x l IH]; intros acc; simpl.
  - symmetry. apply app_nil_r.
  - rewrite IH, <- app_assoc. reflexivity.
Qed.

(** X4. The options pytest is started with: [-q] and [--tb=no], then [-x]
    exactly when the failure policy is 'fast', then the pass-through
    options as given, then the words of the test selectors in order. Every
    selector word is non-empty and free of separators, so a selector made
    of blanks adds nothing. *)
Theorem build_opts_shape (args : Cli.args_t) :
  Cli.build_opts args
  = (["-q"; "--tb=no"]
     ++ (if bool_decide (Cli.fail args = Some "fast") then ["-x"] else [])
     ++ Cli.pytest_option args
     ++ flat_map py_split (Cli.tests args))%list /\
  Forall (fun w => is_word w = true) (flat_map py_split (Cli.tests args)).
Proof.
  split.
  - unfold Cli.build_opts.
    destruct (bool_decide (Cli.fail args = Some "fast"));
      destruct (Cli.pytest_option args) as [|o os];
      destruct (Cli.tests args) as [|t ts];
      rewrite ?fold_left_snoc, ?fold_left_extend; cbn [flat_map app];
      rewrite ?app_nil_r, <- ?app_assoc; reflexivity.
  - induction (Cli.tests args) as [|t ts IH]; simpl; [constructor|].
    apply Forall_app.
    split; [apply split_words_are_words; reflexivity | exact IH].
Qed.

(** A chain that stops with [sys.exit] stops with status 1. *)
Lemma failed_chain_exit_code c a s code :
  (Auth.authenticate_chain c a s).1 = Auth.SysExit code -> code = 1.
Proof.
  unfold Auth.authenticate_chain, Auth.validate_existing, Auth.try_oauth,
    Auth.try_password.
  cbn [Auth.config Auth.calls Auth.console Auth.say Auth.called Auth.set_val].
  destruct (Auth.config s !! Auth.acs_token); cbn; chain_cases;
    intros H; try discriminate H; injection H as <-; reflexivity.
Qed.

(** * Pre-flight checks and the exit status *)

Ltac cli_unfold :=
  unfold Cli.cli, Cli.preflight, Cli.ready, Cli.imports_ok,
    Cli.probed_config, Cli.requirements;
  cbn [Cli.check_requirements forallb fst snd].

Ltac cli_case :=
  match goal with
  | |- context [Cli.quiet ?a] => destruct (Cli.quiet a) eqn:?
  | |- context [str_truthy (Cli.dcos_url ?a)] =>
      destruct (str_truthy (Cli.dcos_url a)) eqn:?
  | |- context [str_truthy (Cli.ssh_key_file ?a)] =>
      destruct (str_truthy (Cli.ssh_key_file a)) eqn:?
  | |- context [Cli.no_banner ?a] => destruct (Cli.no_banner a) eqn:?
  | |- context [Cli.ssl_no_verify ?a] => destruct (Cli.ssl_no_verify a) eqn:?
  | |- context [Cli.import_module ?e ?r] =>
      destruct (Cli.import_module e r) eqn:?
  | |- context [Cli.dcos_version ?e ?c] =>
      destruct (Cli.dcos_version e c) eqn:?
  end;
  cbn [negb andb fst snd Cli.config Cli.calls Cli.console Cli.say Cli.called
       Cli.set_val Cli.set_quiet Cli.set_ssh_key_file Cli.start
       Cli.check_requirements Cli.after_chain].

Ltac cli_cases := cli_unfold; repeat cli_case.

Lemma filter_pytest_client (cs : list Auth.call) :
  List.filter Cli.is_pytest (map Cli.Client cs) = [].
Proof. induction cs as [|c cs IH]; simpl; [reflexivity | exact IH]. Qed.

(** X5. [cli] ends with pytest's exit status exactly when every check
    before it passes, and then pytest is started once, with the options of
    [build_opts], as the last call. Otherwise pytest is never started and
    the process ends with status 1 or with an uncaught exception of the
    token probe. *)
Theorem cli_exit_status (e : Cli.env) (args : Cli.args_t) :
  let r := Cli.cli e args in
  if Cli.ready e args
  then r.1 = Auth.SysExit (Cli.pytest_main e (Cli.build_opts args)) /\
       exists before,
         Cli.calls r.2
         = (before ++ [Cli.PytestMain (Cli.build_opts args)])%list /\
         List.filter Cli.is_pytest before = []
  else (r.1 = Auth.SysExit 1 \/ r.1 = Auth.Uncaught) /\
       List.filter Cli.is_pytest (Cli.calls r.2) = [].
Proof.
  intros r. subst r. cli_cases; try (split; [left; reflexivity | reflexivity]);
    match goal with
    | |- context [Auth.authenticate_chain ?c ?a ?s] =>
        pose proof (failed_chain_exit_code c a s) as Hx;
        destruct (Auth.authenticate_chain c a s) as [t au] eqn:Hch
    end;
    cbn [fst snd Auth.proceeds] in *;
    destruct t; cbn [Auth.proceeds fst snd Cli.calls Cli.called Cli.after_chain];
    try (split; [reflexivity|]; eexists; split; [reflexivity|];
         rewrite ?List.filter_app, filter_pytest_client; reflexivity);
    try (split; [ first [ right; reflexivity | left; f_equal; apply Hx; reflexivity ]
                | rewrite ?List.filter_app, filter_pytest_client; reflexivity ]).
Qed.

(** X6. Without a cluster URL [cli] stops at once with status 1: the only
    line written is the error, no library is imported, the client is never
    called and the configuration is left as it was. *)
Theorem missing_url_stops_first (e : Cli.env) (args : Cli.args_t) :
  str_truthy (Cli.dcos_url args) = false ->
  let r := Cli.cli e args in
  r.1 = Auth.SysExit 1 /\
  Cli.console r.2 = [Cli.url_required] /\
  Cli.calls r.2 = [] /\
  Cli.config r.2 = Cli.persisted e.
Proof.
  intros Hu r. subst r. unfold Cli.cli, Cli.preflight. rewrite Hu.
  destruct (Cli.quiet args); cbn; repeat split; reflexivity.
Qed.

Lemma missing_url_stops_first_witness :
  let args :=
    {| Cli.quiet := true; Cli.dcos_url := Some EmptyString;
       Cli.ssh_key_file := None; Cli.no_banner := false;
       Cli.ssl_no_verify := true; Cli.fail := None;
       Cli.pytest_option := []; Cli.tests := ["a.py"];
       Cli.auth := Auth.all_args;
       Cli.plugin := Report.deferred (Some "fail") |} in
  str_truthy (Cli.dcos_url args) = false /\
  Cli.calls (Cli.cli Cli.healthy args).2 = [].
Proof.
  intros args. split; [reflexivity|].
  pose proof (missing_url_stops_first Cli.healthy args eq_refl)
    as [_ [_ [H _]]].
  exact H.
Defined.

(** X7. When one of the two libraries does not import, [cli] stops with
    status 1 after the error naming it: nothing has been written to the
    configuration and the cluster has not been contacted. *)
Theorem missing_library_stops (e : Cli.env) (args : Cli.args_t) :
  str_truthy (Cli.dcos_url args) = true ->
  Cli.imports_ok e = false ->
  let r := Cli.cli e args in
  r.1 = Auth.SysExit 1 /\
  List.filter Cli.is_client (Cli.calls r.2) = [] /\
  Cli.config r.2 = Cli.persisted e /\
  exists before req,
    Cli.console r.2 = (before ++ [Cli.not_installed req])%list /\
    In req ["pytest"; "dcos"] /\
    Cli.import_module e req = None.
Proof.
  intros Hu Hi r. subst r. revert Hi. cli_cases; try discriminate; intros Hi;
    try discriminate Hi;
    (split; [reflexivity|]); (split; [reflexivity|]); (split; [reflexivity|]);
    eexists; eexists; (split; [reflexivity|]);
    (split; [simpl; auto | assumption]).
Qed.

Lemma missing_library_stops_witness :
  str_truthy (Cli.dcos_url Cli.sample_args) = true /\
  Cli.imports_ok Cli.no_dcos_library = false /\
  Cli.config (Cli.cli Cli.no_dcos_library Cli.sample_args).2 = ∅.
Proof.
  split; [reflexivity|]. split; [reflexivity|].
  pose proof (missing_library_stops Cli.no_dcos_library Cli.sample_args
                eq_refl eq_refl) as [_ [_ [H _]]].
  exact H.
Defined.

(** X8. When the version query fails, [cli] reports the cluster as
    unreachable and stops with status 1. The URL, and before it the SSL
    setting when asked for, have been written; the authentication chain has
    not begun: no token lookup, no probe, no exchange. *)
Theorem unreachable_cluster_stops (e : Cli.env) (args : Cli.args_t) :
  str_truthy (Cli.dcos_url args) = true ->
  Cli.imports_ok e = true ->
  Cli.dcos_version e (Cli.probed_config e args) = None ->
  let r := Cli.cli e args in
  let url := default EmptyString (Cli.dcos_url args) in
  r.1 = Auth.SysExit 1 /\
  Cli.calls r.2
  = ([Cli.ImportModule "pytest"; Cli.ImportModule "dcos"]
     ++ (if Cli.ssl_no_verify args
         then [Cli.Client (Auth.SetVal "core.ssl_verify" "False")] else [])
     ++ [Cli.Client (Auth.SetVal "core.dcos_url" url); Cli.DcosVersion])%list /\
  Cli.config r.2 = Cli.probed_config e args /\
  List.filter Auth.is_error (Cli.console r.2) = [Cli.unreachable url].
Proof.
  intros Hu Hi Hv r url. subst r url. revert Hi Hv.
  cli_cases; try discriminate; intros Hi Hv; try discriminate Hi;
    try discriminate Hv; repeat split; reflexivity.
Qed.

Lemma unreachable_cluster_stops_witness :
  str_truthy (Cli.dcos_url Cli.sample_args) = true /\
  Cli.imports_ok Cli.no_cluster = true /\
  Cli.dcos_version Cli.no_cluster
    (Cli.probed_config Cli.no_cluster Cli.sample_args) = None /\
  (Cli.cli Cli.no_cluster Cli.sample_args).1 = Auth.SysExit 1.
Proof.
  split; [reflexivity|]. split; [reflexivity|]. split; [reflexivity|].
  pose proof (unreachable_cluster_stops Cli.no_cluster Cli.sample_args
                eq_refl eq_refl eq_refl) as [H _].
  exact H.
Defined.

(** * More on the authentication chain *)

Ltac chain_unfold :=
  unfold Auth.authenticate_chain, Auth.validate_existing, Auth.try_oauth,
    Auth.try_password, strategy_succeeds, strategy_order, has_key, probe_ok,
    answers;
  cbn [Auth.config Auth.calls Auth.console Auth.say Auth.called Auth.set_val
       Auth.start].

(** X9. With no stored token, or one the probe rejects, and an OAuth token
    the cluster accepts: the chain authenticates with exactly one exchange,
    the OAuth one, and one write, which leaves the exchanged token in the
    configuration; the password exchange is not attempted, whatever else
    was given. *)
Theorem oauth_replaces_invalid_token
    (c : Auth.client) (args : Auth.args_t) (cfg : gmap string string)
    (tok : string) :
  has_key Auth.acs_token cfg = false
  \/ Auth.dcos_leader c cfg = Auth.ProbeDCOSException ->
  str_truthy (Auth.oauth_token args) = true ->
  Auth.authenticate_oauth c (default EmptyString (Auth.oauth_token args))
  = Some tok ->
  let r := Auth.authenticate_chain c args (Auth.start cfg) in
  r.1 = Auth.Proceed /\
  List.filter Auth.is_exchange (Auth.calls r.2)
  = [Auth.AuthenticateOauth (default EmptyString (Auth.oauth_token args))] /\
  List.filter Auth.is_write (Auth.calls r.2)
  = [Auth.SetVal Auth.acs_token tok] /\
  Auth.config r.2 = <[Auth.acs_token := tok]> cfg.
Proof.
  intros Hex Ho Hx r. subst r. chain_unfold.
  destruct (cfg !! Auth.acs_token) as [t|] eqn:Et; cbn.
  - destruct Hex as [Hex|Hex]; [unfold has_key in Hex; rewrite Et in Hex;
                                discriminate|].
    rewrite Hex. cbn. rewrite Ho, Hx. cbn. repeat split; reflexivity.
  - rewrite Ho, Hx. cbn. repeat split; reflexivity.
Qed.

Lemma oauth_replaces_invalid_token_witness :
  let c :=
    {| Auth.dcos_leader := fun _ => Auth.ProbeDCOSException;
       Auth.authenticate_oauth := fun t => Some ("acs-" ++ t)%string;
       Auth.authenticate := fun _ _ => None |} in
  Auth.config (Auth.authenticate_chain c Auth.all_args
                 (Auth.start Auth.stored)).2 !! Auth.acs_token
  = Some "acs-oauth".
Proof.
  intros c.
  pose proof (oauth_replaces_invalid_token c Auth.all_args Auth.stored
                "acs-oauth" (or_intror eq_refl) eq_refl eq_refl)
    as [_ [_ [_ H]]].
  rewrite H. apply lookup_insert_eq.
Defined.

(** X10. When the stored token and the OAuth token do not authenticate (each
    absent or rejected) and the cluster accepts the username and password,
    the chain authenticates with the password exchange as its last
    exchange, after the OAuth one if that was tried, and leaves the token
    it returned in the configuration. *)
Theorem password_is_last_resort
    (c : Auth.client) (args : Auth.args_t) (cfg : gmap string string)
    (tok : string) :
  has_key Auth.acs_token cfg = false
  \/ Auth.dcos_leader c cfg = Auth.ProbeDCOSException ->
  str_truthy (Auth.oauth_token args) = false
  \/ Auth.authenticate_oauth c (default EmptyString (Auth.oauth_token args))
     = None ->
  str_truthy (Auth.username args) = true ->
  str_truthy (Auth.password args) = true ->
  Auth.authenticate c (default EmptyString (Auth.username args))
    (default EmptyString (Auth.password args)) = Some tok ->
  let r := Auth.authenticate_chain c args (Auth.start cfg) in
  r.1 = Auth.Proceed /\
  List.filter Auth.is_exchange (Auth.calls r.2)
  = ((if str_truthy (Auth.oauth_token args)
      then [Auth.AuthenticateOauth
              (default EmptyString (Auth.oauth_token args))]
      else [])
     ++ [Auth.Authenticate (default EmptyString (Auth.username args))
           (default EmptyString (Auth.password args))])%list /\
  Auth.config r.2 = <[Auth.acs_token := tok]> cfg.
Proof.
  intros Hex Ho Hu Hp Hx r. subst r. chain_unfold.
  destruct (cfg !! Auth.acs_token) as [t|] eqn:Et; cbn;
    [ destruct Hex as [Hex|Hex];
      [ unfold has_key in Hex; rewrite Et in Hex; discriminate
      | rewrite Hex; cbn ] | ];
    (destruct Ho as [Ho|Ho];
     [ rewrite Ho
     | destruct (str_truthy (Auth.oauth_token args)); [rewrite Ho|] ]);
    cbn; rewrite Hu, Hp, Hx; cbn; repeat split; reflexivity.
Qed.

Lemma password_is_last_resort_witness :
  let c :=
    {| Auth.dcos_leader := fun _ => Auth.ProbeDCOSException;
       Auth.authenticate_oauth := fun _ => None;
       Auth.authenticate := fun u _ => Some ("acs-" ++ u)%string |} in
  (Auth.authenticate_chain c Auth.all_args (Auth.start Auth.stored)).1
  = Auth.Proceed.
Proof.
  intros c.
  pose proof (password_is_last_resort c Auth.all_args Auth.stored "acs-bob"
                (or_intror eq_refl) (or_intror eq_refl) eq_refl eq_refl
                eq_refl) as [H _].
  exact H.
Defined.

(** X11. The chain writes to the configuration only when an exchange has
    succeeded: either it made no write and the configuration is the one it
    started from, or it authenticated, made one write, and the
    configuration differs from the start by the new token alone. A chain
    that fails leaves the configuration untouched. *)
Theorem chain_writes_only_on_success
    (c : Auth.client) (args : Auth.args_t) (cfg : gmap string string) :
  let r := Auth.authenticate_chain c args (Auth.start cfg) in
  (List.filter Auth.is_write (Auth.calls r.2) = [] /\ Auth.config r.2 = cfg)
  \/ (exists tok,
        r.1 = Auth.Proceed /\
        List.filter Auth.is_write (Auth.calls r.2)
        = [Auth.SetVal Auth.acs_token tok] /\
        Auth.config r.2 = <[Auth.acs_token := tok]> cfg).
Proof.
  intros r. subst r. chain_unfold.
  destruct (cfg !! Auth.acs_token) as [t|] eqn:Et; cbn; chain_cases;
    first [ left; split; reflexivity
          | right; eexists; repeat split; reflexivity ].
Qed.

(** X12. Each strategy is tried at most once and in the fixed order: the
    calls of the chain other than writes are, in order, some of: the token
    lookup, the probe, the OAuth exchange, the password exchange. *)
Theorem strategies_once_in_order
    (c : Auth.client) (args : Auth.args_t) (cfg : gmap string string) :
  let r := Auth.authenticate_chain c args (Auth.start cfg) in
  sublist (List.filter (fun k => negb (Auth.is_write k)) (Auth.calls r.2))
    (strategy_order args).
Proof.
  intros r. subst r. chain_unfold.
  destruct (cfg !! Auth.acs_token) as [t|] eqn:Et; cbn; chain_cases;
    repeat first [ apply sublist_nil | apply sublist_skip | apply sublist_cons ].
Qed.

(** X13. Unless the probe of a stored token raises something other than
    [DCOSException], the chain authenticates exactly when some strategy is
    given its input and accepted by the cluster. *)
Theorem chain_authenticates_iff
    (c : Auth.client) (args : Auth.args_t) (cfg : gmap string string) :
  has_key Auth.acs_token cfg = false
  \/ Auth.dcos_leader c cfg <> Auth.ProbeOtherException ->
  Auth.proceeds (Auth.authenticate_chain c args (Auth.start cfg)).1
  = strategy_succeeds c args cfg.
Proof.
  intros H. chain_unfold. unfold has_key in H.
  destruct (cfg !! Auth.acs_token) as [t|] eqn:Et; cbn.
  - destruct H as [H|H]; [discriminate|].
    destruct (Auth.dcos_leader c cfg) eqn:Ep; try congruence; cbn;
      chain_cases; reflexivity.
  - chain_cases; reflexivity.
Qed.

Lemma chain_authenticates_iff_witness :
  Auth.proceeds (Auth.authenticate_chain Auth.rejecting Auth.all_args
                   (Auth.start Auth.stored)).1 = false.
Proof.
  rewrite (chain_authenticates_iff Auth.rejecting Auth.all_args Auth.stored).
  - reflexivity.
  - right. discriminate.
Defined.

(** * More on the plugin *)

(** ** The status hook *)

(** [output] unfolded where its [state] and [text] are given. *)
Ltac output_unfold :=
  unfold Report.output, Report.echo_marker, Report.read_schr;
  cbn [String.eqb Ascii.eqb Bool.eqb truthy negb andb orb].

(** The status hook returns, and what it leaves behind. *)
Lemma teststatus_returns
    (args : Report.args_t) (r : Report.report) (s : Report.agg) :
  exists s',
    Report.pytest_report_teststatus args r s
    = (inr (if well_formed (Report.nodeid r)
            then Some (Report.outcome r) else None), s') /\
    (well_formed (Report.nodeid r) = true ->
     has_key (Report.nodeid r) (Report.sd_tests_test s') = true /\
     has_key (split_head (Report.nodeid r)) (Report.sd_tests_file s') = true) /\
    Report.sd_stdout s' = Report.sd_stdout s /\
    Report.blocks_in (Report.sd_console s')
    = Report.blocks_in (Report.sd_console s).
Proof.
  unfold well_formed, split_head, Report.pytest_report_teststatus.
  destruct (split_sep (Report.nodeid r)) as [[file test]|] eqn:Hsplit.
  2:{ eexists. split; [reflexivity|]. split; [discriminate|].
      split; reflexivity. }
  output_unfold.
  monad_run;
    eexists; (split; [reflexivity|]);
    cbn [Report.sd_tests_test Report.sd_tests_file Report.sd_stdout
         Report.sd_console];
    rewrite ?blocks_in_app; cbn [Report.blocks_in]; rewrite ?app_nil_r;
    (split; [intros _; split|split; reflexivity]);
    repeat first [ assumption | apply has_key_insert
                 | rewrite has_key_insert | reflexivity ].
Qed.

(** X14. The status hook never raises, whatever the state it is called in.
    For an id with a separator it returns the report's outcome and leaves
    the id and its file registered; it writes labels and at most a marker,
    never a block, and does not touch the buffer. *)
Theorem teststatus_never_raises
    (args : Report.args_t) (r : Report.report) (s : Report.agg) :
  exists s',
    Report.pytest_report_teststatus args r s
    = (inr (if well_formed (Report.nodeid r)
            then Some (Report.outcome r) else None), s') /\
    (well_formed (Report.nodeid r) = true ->
     has_key (Report.nodeid r) (Report.sd_tests_test s') = true /\
     has_key (split_head (Report.nodeid r)) (Report.sd_tests_file s') = true) /\
    Report.sd_stdout s' = Report.sd_stdout s /\
    Report.blocks_in (Report.sd_console s')
    = Report.blocks_in (Report.sd_console s).
Proof. apply teststatus_returns. Qed.

(** ** The log hook on a registered node *)

Lemma report_state_bound (r : Report.report) (state : option string) :
  Report.skipped r = false ->
  state = None \/ state = Some "pass" \/ state = Some "fail" ->
  Report.report_state r state = None
  \/ Report.report_state r state = Some "pass"
  \/ Report.report_state r state = Some "fail".
Proof.
  intros Hs Hst. unfold Report.report_state. rewrite Hs.
  destruct (Report.passed r), (Report.failed r); tauto.
Qed.

Ltac monad_output Hst :=
  repeat first
    [ monad_step
    | rewrite (output_spec _ _ _ _ _ _ Hst) ].

Lemma logreport_section_returns args r state sec s :
  has_key (Report.nodeid r) (Report.sd_tests_test s) = true ->
  Report.skipped r = false ->
  state = None \/ state = Some "pass" \/ state = Some "fail" ->
  exists s',
    Report.logreport_section args r state sec s
    = (inr (Report.report_state r state), s') /\
    has_key (Report.nodeid r) (Report.sd_tests_test s') = true.
Proof.
  intros Hk Hs Hst. unfold Report.logreport_section.
  destruct sec as [secname content].
  destruct (report_state_bound r state Hs Hst) as [E | [E | E]]; rewrite E.
  - monad_run. eexists. split; [reflexivity | assumption].
  - assert (Hin : In "pass" ["pass"; "fail"]) by (simpl; auto).
    monad_output Hin;
      eexists; (split; [reflexivity|]);
      cbn [Report.sd_tests_test Report.set_stdout Report.set_console];
      rewrite ?has_key_insert; first [assumption | reflexivity].
  - assert (Hin : In "fail" ["pass"; "fail"]) by (simpl; auto).
    monad_output Hin;
      eexists; (split; [reflexivity|]);
      cbn [Report.sd_tests_test Report.set_stdout Report.set_console];
      rewrite ?has_key_insert; first [assumption | reflexivity].
Qed.

Lemma logreport_sections_return args r secs :
  forall state s,
    has_key (Report.nodeid r) (Report.sd_tests_test s) = true ->
    Report.skipped r = false ->
    state = None \/ state = Some "pass" \/ state = Some "fail" ->
    exists st' s',
      Report.logreport_sections args r state secs s = (inr st', s') /\
      has_key (Report.nodeid r) (Report.sd_tests_test s') = true.
Proof.
  induction secs as [|sec rest IH]; intros state s Hk Hs Hst; simpl.
  - eexists. eexists. split; [reflexivity | assumption].
  - destruct (logreport_section_returns args r state sec s Hk Hs Hst)
      as [s1 [E1 K1]].
    unfold Report.bind. rewrite E1.
    apply IH; [assumption | assumption |].
    apply report_state_bound; assumption.
Qed.

(** The log hook on a registered node, skips apart, returns. *)
Lemma logreport_returns
    (args : Report.args_t) (r : Report.report) (s : Report.agg) :
  has_key (Report.nodeid r) (Report.sd_tests_test s) = true ->
  Report.skipped r = false ->
  exists s',
    Report.pytest_runtest_logreport args r s = (inr tt, s') /\
    has_key (Report.nodeid r) (Report.sd_tests_test s') = true.
Proof.
  intros Hk Hs. unfold Report.pytest_runtest_logreport.
  destruct (logreport_sections_return args r (Report.sections r) None s
              Hk Hs (or_introl eq_refl)) as [st' [s1 [E1 K1]]].
  unfold Report.bind at 1. rewrite E1.
  assert (Hin : In "fail" ["pass"; "fail"]) by (simpl; auto).
  destruct (reprcrash (Report.longrepr r)) as [crash|].
  - monad_output Hin;
      eexists; (split; [reflexivity|]);
      cbn [Report.sd_tests_test Report.set_stdout Report.set_console];
      rewrite ?has_key_insert; first [assumption | reflexivity].
  - eexists. split; [reflexivity | assumption].
Qed.

(** X15. On a node that is registered, a log report that is not a skip
    never raises, whatever its sections and whether or not it carries a
    crash, and the node stays registered. *)
Theorem logreport_registered_returns
    (args : Report.args_t) (r : Report.report) (s : Report.agg) :
  has_key (Report.nodeid r) (Report.sd_tests_test s) = true ->
  Report.skipped r = false ->
  exists s',
    Report.pytest_runtest_logreport args r s = (inr tt, s') /\
    has_key (Report.nodeid r) (Report.sd_tests_test s') = true.
Proof. apply logreport_returns. Qed.

Lemma logreport_registered_returns_witness :
  let r := Report.pytest_report "a.py::t" "call" "failed"
             [("Captured stderr call", "oops"); ("Captured stdout call", "x")]
             (PyRepr "trace" (Some "a.py:3: boom")) in
  let s := (Report.pytest_report_teststatus (Report.inline (Some "all")) r
              Report.init).2 in
  exists s',
    Report.pytest_runtest_logreport (Report.inline (Some "all")) r s
    = (inr tt, s') /\
    has_key "a.py::t" (Report.sd_tests_test s') = true.
Proof.
  intros r s.
  apply (logreport_registered_returns (Report.inline (Some "all")) r s);
    reflexivity.
Defined.

(** X16. For a report that is not a skip and whose id has a separator, the
    two calls pytest makes for a phase, status then log, return without
    raising from any state: the status call registers what the log call
    looks up. *)
Theorem phase_returns
    (args : Report.args_t) (r : Report.report) (s : Report.agg) :
  well_formed (Report.nodeid r) = true ->
  Report.skipped r = false ->
  exists s',
    Report.run args (Report.phase r) s = (inr tt, s') /\
    has_key (Report.nodeid r) (Report.sd_tests_test s') = true.
Proof.
  intros Hw Hs.
  destruct (teststatus_returns args r s) as [s1 [E1 [K1 _]]].
  destruct (K1 Hw) as [K _].
  destruct (logreport_returns args r s1 K Hs) as [s2 [E2 K2]].
  exists s2. split; [|exact K2].
  unfold Report.phase. cbn [Report.run Report.hook]. unfold Report.bind.
  rewrite E1. cbn [Report.ret]. rewrite E2. reflexivity.
Qed.

Lemma phase_returns_witness :
  exists s',
    Report.run (Report.deferred (Some "all"))
      (Report.phase Report.unannounced_crash) Report.init = (inr tt, s') /\
    has_key "a.py::t" (Report.sd_tests_test s') = true.
Proof.
  apply (phase_returns (Report.deferred (Some "all"))
           Report.unannounced_crash Report.init); reflexivity.
Defined.

(** ** A node that carries 'tested' *)

Lemma markers_of_app id c1 c2 :
  Report.markers_of id (c1 ++ c2)
  = (Report.markers_of id c1 ++ Report.markers_of id c2)%list.
Proof. unfold Report.markers_of. apply List.filter_app. Qed.

Lemma has_key_keep {V} (k k' : string) (v : V) (d : gmap string V) :
  has_key k d = true -> has_key k (<[k' := v]> d) = true.
Proof.
  unfold has_key. intros H.
  destruct (decide (k' = k)) as [->|Hne].
  - rewrite lookup_insert_eq. reflexivity.
  - rewrite lookup_insert_ne by exact Hne. exact H.
Qed.

(** [output] leaves the registry alone, and echoes a marker only for its
    own title and only when asked to. *)
Lemma output_frame id args title st text status s :
  let s' := (Report.output args title st text status s).2 in
  Report.sd_tests_test s' = Report.sd_tests_test s /\
  (status = false \/ title <> id ->
   Report.markers_of id (Report.sd_console s')
   = Report.markers_of id (Report.sd_console s)).
Proof.
  unfold Report.output, Report.echo_marker, Report.read_schr.
  destruct status, (Report.a_stdout_inline args), (truthy text),
    (st =? "fail")%string, (st =? "pass")%string,
    (Report.stdout_selects args st); cbn;
    (split; [reflexivity|]); intros [H|H]; try discriminate H;
    unfold Report.markers_of; rewrite ?List.filter_app; cbn;
    try (apply String.eqb_neq in H; rewrite H); cbn;
    rewrite ?app_nil_r; reflexivity.
Qed.

Lemma stays_marked_refl id s : stays_marked id s s.
Proof. intros H. split; [exact H | reflexivity]. Qed.

Lemma stays_marked_trans id a b c :
  stays_marked id a b -> stays_marked id b c -> stays_marked id a c.
Proof.
  intros H1 H2 Ha. destruct (H1 Ha) as [Hb E1]. destruct (H2 Hb) as [Hc E2].
  split; [exact Hc | congruence].
Qed.

(** The leaves of a symbolic run: the registry and the console of the
    state reached are read against the ones at the start. *)
Ltac marked_leaf Hd Ht :=
  unfold stays_marked, flagged;
  cbn [Report.sd_tests_test Report.sd_console snd];
  intros _;
  repeat first
    [ rewrite lookup_insert_eq
    | rewrite lookup_insert_ne by congruence
    | rewrite Hd ];
  split;
  [ repeat first [ exact Ht | apply has_key_keep | reflexivity ]
  | unfold Report.markers_of; rewrite ?List.filter_app;
    cbn [List.filter Report.is_marker_of app];
    rewrite ?app_nil_r; try reflexivity ].

Lemma stays_marked_status args id r :
  within (stays_marked id) (Report.pytest_report_teststatus args r).
Proof.
  intros s. 
  destruct (flagged "tested" id s) eqn:Hfl;
    [ | intros Hc; unfold flagged in *; congruence ].
  unfold flagged in Hfl.
  destruct (Report.sd_tests_test s !! id) as [d|] eqn:Hd; [|discriminate].
  rename Hfl into Ht.
  assert (Hk : has_key id (Report.sd_tests_test s) = true)
    by (unfold has_key; rewrite Hd; reflexivity).
  unfold Report.pytest_report_teststatus.
  destruct (split_sep (Report.nodeid r)) as [[file test]|] eqn:Hsplit;
    [ | apply stays_marked_refl ].
  output_unfold.
  destruct (decide (Report.nodeid r = id)) as [E|E].
  - rewrite E.
    repeat first
      [ rewrite Hk | rewrite Hd | rewrite Ht
      | rewrite (has_key_keep "tested" "fail" true d Ht)
      | monad_step ];
    marked_leaf Hd Ht.
  - assert (Eb : (Report.nodeid r =? id)%string = false)
      by (apply String.eqb_neq; exact E).
    monad_run; marked_leaf Hd Ht; rewrite ?Eb; cbn [app];
      rewrite ?app_nil_r; reflexivity.
Qed.

(** A call to [output] in the goal is replaced by the state it reaches,
    with what [output_frame] says of it. *)
Ltac output_step id :=
  match goal with
  | |- context [Report.output ?a ?t ?st ?tx ?b ?sx] =>
      let H := fresh "Hout" in
      let res := fresh "res" in
      let Hres := fresh "Hres" in
      pose proof (output_frame id a t st tx b sx) as H;
      cbv zeta in H;
      remember (Report.output a t st tx b sx) as res eqn:Hres in *;
      clear Hres;
      destruct res as [[?|[]] ?];
      cbn [snd] in H;
      destruct H as [? ?]
  end.

(** A lookup in the registry that no hypothesis settles: both answers. *)
Ltac lookup_case :=
  match goal with
  | |- context [Report.sd_tests_test ?s !! ?k] =>
      is_var s; destruct (Report.sd_tests_test s !! k) eqn:?
  end.

Ltac marked_close Hd Ht :=
  unfold stays_marked, flagged;
  cbn [Report.sd_tests_test Report.sd_console snd];
  intros _;
  repeat match goal with
         | H : Report.sd_tests_test _ = _ |- _ => rewrite H; clear H
         end;
  cbn [Report.sd_tests_test Report.sd_console snd];
  repeat first
    [ rewrite lookup_insert_eq
    | rewrite lookup_insert_ne by congruence
    | rewrite Hd ];
  split;
  [ repeat first [ exact Ht | apply has_key_keep | reflexivity ]
  | repeat match goal with
           | H : _ -> Report.markers_of _ _ = _ |- _ =>
               rewrite H by (first [ left; reflexivity | right; congruence ]);
               clear H
           end;
    cbn [Report.sd_console];
    try reflexivity ].

Lemma stays_marked_section args id r state sec :
  within (stays_marked id) (Report.logreport_section args r state sec).
Proof.
  intros s.
  destruct (flagged "tested" id s) eqn:Hfl;
    [ | intros Hc; unfold flagged in *; congruence ].
  unfold flagged in Hfl.
  destruct (Report.sd_tests_test s !! id) as [d|] eqn:Hd; [|discriminate].
  rename Hfl into Ht.
  unfold Report.logreport_section. destruct sec as [secname content].
  destruct (Report.report_state r state) as [st|];
    [ | apply stays_marked_refl ].
  destruct (decide (Report.nodeid r = id)) as [E|E].
  - rewrite E.
    repeat first
      [ rewrite Hd | rewrite Ht
      | rewrite (has_key_keep "tested" "setup" true d Ht)
      | monad_step
      | output_step id ];
    marked_close Hd Ht.
  - repeat first [ monad_step | output_step id | lookup_case ];
    marked_close Hd Ht.
Qed.

Lemma stays_marked_sections args id r secs :
  forall state,
    within (stays_marked id) (Report.logreport_sections args r state secs).
Proof.
  induction secs as [|sec rest IH]; intros state; simpl.
  - apply (within_ret _ (stays_marked_refl id)).
  - apply (within_bind _ (stays_marked_trans id));
      [ apply stays_marked_section | intros st'; apply IH ].
Qed.

Lemma stays_marked_crash args id r crash :
  within (stays_marked id)
    (Report.bind (Report.tests_test_get (Report.nodeid r))
       (fun d =>
          if has_key "tested" d then
            Report.bind
              (Report.output args (Report.nodeid r) "fail"
                 (PyStr ("error: " ++ crash)) false)
              (fun _ =>
                 Report.when_ (Report.a_stdout_inline args)
                   (Report.echo (Report.Echo EmptyString None true)))
          else
            Report.bind (Report.tests_test_flag (Report.nodeid r) "tested")
              (fun _ =>
                 Report.output args (Report.nodeid r) "fail"
                   (PyStr ("error: " ++ crash)) true))).
Proof.
  intros s.
  destruct (flagged "tested" id s) eqn:Hfl;
    [ | intros Hc; unfold flagged in *; congruence ].
  unfold flagged in Hfl.
  destruct (Report.sd_tests_test s !! id) as [d|] eqn:Hd; [|discriminate].
  rename Hfl into Ht.
  destruct (decide (Report.nodeid r = id)) as [E|E].
  - rewrite E.
    repeat first
      [ rewrite Hd | rewrite Ht | monad_step | output_step id ];
    marked_close Hd Ht;
    rewrite ?markers_of_app;
    repeat match goal with
           | H : _ -> Report.markers_of _ _ = _ |- _ =>
               rewrite H by (first [ left; reflexivity | right; congruence ]);
               clear H
           end;
    cbn; rewrite ?app_nil_r; reflexivity.
  - repeat first [ monad_step | output_step id | lookup_case ];
    marked_close Hd Ht;
    rewrite ?markers_of_app;
    repeat match goal with
           | H : _ -> Report.markers_of _ _ = _ |- _ =>
               rewrite H by (first [ left; reflexivity | right; congruence ]);
               clear H
           end;
    cbn; rewrite ?app_nil_r; reflexivity.
Qed.

Lemma stays_marked_hook args id e :
  is_collect e = false -> within (stays_marked id) (Report.hook args e).
Proof.
  intros He. destruct e as [r| |r|r|]; try discriminate He; simpl.
  - intros s Hs. split; [exact Hs|].
    unfold Report.markers_of. cbn. rewrite List.filter_app. cbn.
    apply app_nil_r.
  - apply (within_bind _ (stays_marked_trans id));
      [ apply stays_marked_status
      | intros ?; apply (within_ret _ (stays_marked_refl id)) ].
  - unfold Report.pytest_runtest_logreport.
    apply (within_bind _ (stays_marked_trans id));
      [ apply stays_marked_sections | intros _ ].
    destruct (reprcrash (Report.longrepr r)) as [crash|].
    + apply stays_marked_crash.
    + apply (within_ret _ (stays_marked_refl id)).
  - intros s Hs. rewrite sessionfinish_spec. split; [exact Hs|].
    unfold Report.markers_of. cbn. rewrite List.filter_app. cbn.
    assert (Hb : forall bs, List.filter (Report.is_marker_of id)
                              (map Report.EchoBlock bs) = []).
    { induction bs as [|b bs IHb]; simpl; [reflexivity | exact IHb]. }
    destruct (str_truthy (Report.a_stdout args)); rewrite ?Hb;
      apply app_nil_r.
Qed.

(** X17. Once a node carries 'tested', no hook call after the collection
    echoes another marker for it and the flag is never removed: along any
    sequence of status, log, session-start and session-finish calls, for
    this node or for others, from any state and whether or not a call
    raises, its markers on the console stay the ones that were there. *)
Theorem finalized_no_more_markers
    (args : Report.args_t) (id : string) (es : list Report.event)
    (s : Report.agg) :
  flagged "tested" id s = true ->
  forallb (fun e => negb (is_collect e)) es = true ->
  let s' := (Report.run args es s).2 in
  flagged "tested" id s' = true /\
  Report.markers_of id (Report.sd_console s')
  = Report.markers_of id (Report.sd_console s).
Proof.
  intros Hs Hes. revert s Hs.
  induction es as [|e rest IH]; intros s Hs; simpl.
  - split; [exact Hs | reflexivity].
  - simpl in Hes. apply andb_true_iff in Hes. destruct Hes as [He Hrest].
    apply negb_true_iff in He.
    pose proof (stays_marked_hook args id e He s Hs) as [H1 M1].
    unfold Report.bind.
    destruct (Report.hook args e s) as [[x|[]] s1]; cbn [snd] in *.
    + split; assumption.
    + destruct (IH Hrest s1 H1) as [H2 M2]. split; [exact H2 | congruence].
Qed.

Lemma finalized_no_more_markers_witness :
  let args := Report.deferred (Some "all") in
  let s := (Report.run args
              (Report.printed_call "a.py::t" "passed" "hello") Report.init).2 in
  let later :=
    (Report.phase (Report.pytest_report "a.py::t" "teardown" "failed"
                     [("Captured stdout call", "hello")]
                     (PyRepr "trace" (Some "a.py:9: boom")))
     ++ [Report.SessionFinish])%list in
  flagged "tested" "a.py::t" s = true /\
  Report.markers_of "a.py::t" (Report.sd_console (Report.run args later s).2)
  = [Report.EchoMarker "PP" "pass" "a.py::t"].
Proof.
  intros args s later. split; [reflexivity|].
  pose proof (finalized_no_more_markers args "a.py::t" later s
                eq_refl eq_refl) as [_ H].
  rewrite H. reflexivity.
Defined.

(** ** Captures that are passed over *)

Lemma silent_sections_skip args r secs s :
  forallb (silent_section r s) secs = true ->
  forall state, exists st',
    Report.logreport_sections args r state secs s = (inr st', s).
Proof.
  induction secs as [|[secname content] rest IH]; intros Hs state;
    cbn [Report.logreport_sections].
  - eexists. reflexivity.
  - simpl in Hs. apply andb_true_iff in Hs. destruct Hs as [Hsec Hrest].
    unfold silent_section, flagged in Hsec. cbn [fst] in Hsec.
    assert (E : Report.logreport_section args r state (secname, content) s
                = (inr (Report.report_state r state), s)).
    { unfold Report.logreport_section.
      destruct (Report.report_state r state) as [st|]; [|reflexivity].
      destruct (secname =? "Captured stdout call")%string; cbn [negb].
      - apply negb_true_iff in Hsec. rewrite Hsec. reflexivity.
      - destruct (Report.sd_tests_test s !! Report.nodeid r) as [d|] eqn:Hd;
          [|discriminate].
        repeat first [ rewrite Hd | rewrite Hsec | monad_step ].
        reflexivity. }
    unfold Report.bind. rewrite E. apply IH. exact Hrest.
Qed.

(** X18. A log report without crash whose sections are all passed over
    changes nothing and echoes nothing: after the first capture of a node
    outside the call's stdout, every later such capture of that node is
    dropped, and the call's stdout is looked at in the call phase only. *)
Theorem later_captures_dropped
    (args : Report.args_t) (r : Report.report) (s : Report.agg) :
  forallb (silent_section r s) (Report.sections r) = true ->
  reprcrash (Report.longrepr r) = None ->
  Report.pytest_runtest_logreport args r s = (inr tt, s).
Proof.
  intros Hs Hc. unfold Report.pytest_runtest_logreport.
  destruct (silent_sections_skip args r (Report.sections r) s Hs None)
    as [st' E].
  unfold Report.bind. rewrite E, Hc. reflexivity.
Qed.

Lemma later_captures_dropped_witness :
  let args := Report.inline (Some "all") in
  let s := (Report.run args
              (Report.phase
                 (Report.pytest_report "a.py::t" "setup" "passed"
                    [("Captured stdout setup", "preparing")] PyNone))
              Report.init).2 in
  let r := Report.pytest_report "a.py::t" "teardown" "passed"
             [("Captured stdout setup", "preparing");
              ("Captured stdout call", "hello");
              ("Captured stderr teardown", "cleanup failed quietly")]
             PyNone in
  forallb (silent_section r s) (Report.sections r) = true /\
  Report.pytest_runtest_logreport args r s = (inr tt, s).
Proof.
  intros args s r. split; [reflexivity|].
  apply (later_captures_dropped args r s); reflexivity.
Defined.

(** X19. A crash reported for a node that carries 'tested', in a report
    whose sections are passed over: the log hook returns, echoes no
    marker, leaves the registry as it is and adds one failure block with
    the crash text if the filter is 'fail' or 'all', none otherwise; the
    block goes to the buffer in deferred mode, to the console followed by
    an empty line in inline mode. *)
Theorem crash_after_finalized
    (args : Report.args_t) (r : Report.report) (s : Report.agg)
    (crash : string) :
  flagged "tested" (Report.nodeid r) s = true ->
  forallb (silent_section r s) (Report.sections r) = true ->
  reprcrash (Report.longrepr r) = Some crash ->
  let blk :=
    Report.block_of (Report.nodeid r) "fail" (PyStr ("error: " ++ crash)) in
  let shown := Report.stdout_selects args "fail" in
  exists s',
    Report.pytest_runtest_logreport args r s = (inr tt, s') /\
    Report.sd_tests_test s' = Report.sd_tests_test s /\
    Report.sd_stdout s'
    = (Report.sd_stdout s
       ++ if shown && negb (Report.a_stdout_inline args)
          then [blk] else [])%list /\
    Report.sd_console s'
    = (Report.sd_console s
       ++ (if shown && Report.a_stdout_inline args
           then [Report.EchoBlock blk] else [])
       ++ (if Report.a_stdout_inline args
           then [Report.Echo EmptyString None true] else []))%list.
Proof.
  intros Ht Hs Hc blk shown. subst blk shown.
  unfold Report.pytest_runtest_logreport.
  destruct (silent_sections_skip args r (Report.sections r) s Hs None)
    as [st' E].
  unfold Report.bind at 1. rewrite E, Hc.
  unfold flagged in Ht.
  destruct (Report.sd_tests_test s !! Report.nodeid r) as [d|] eqn:Hd;
    [|discriminate].
  assert (Hin : In "fail" ["pass"; "fail"]) by (simpl; auto).
  assert (Htr : truthy (PyStr ("error: " ++ crash)) = true) by reflexivity.
  destruct (Report.a_stdout_inline args) eqn:Hi;
    destruct (Report.stdout_selects args "fail") eqn:Hsel;
    repeat first
      [ rewrite Hd | rewrite Ht | rewrite (output_spec _ _ _ _ _ _ Hin)
      | rewrite Htr | rewrite Hsel | rewrite Hi
      | progress monad_unfold
      | progress cbv beta iota
      | progress cbn [andb negb orb] ];
    eexists; (split; [reflexivity|]);
    cbn [Report.sd_tests_test Report.sd_stdout Report.sd_console app];
    rewrite ?app_nil_r, <- ?app_assoc; repeat split; reflexivity.
Qed.

Lemma crash_after_finalized_witness :
  let args := Report.deferred (Some "fail") in
  let s := (Report.run args
              (Report.printed_call "a.py::t" "passed" "hello") Report.init).2 in
  let r := Report.pytest_report "a.py::t" "teardown" "failed"
             [("Captured stdout call", "hello")]
             (PyRepr "trace" (Some "a.py:9: boom")) in
  flagged "tested" "a.py::t" s = true /\
  exists s',
    Report.pytest_runtest_logreport args r s = (inr tt, s') /\
    Report.sd_stdout s'
    = [Report.block_of "a.py::t" "fail" (PyStr "error: a.py:9: boom")].
Proof.
  intros args s r. split; [reflexivity|].
  destruct (crash_after_finalized args r s "a.py:9: boom" eq_refl eq_refl
              eq_refl) as [s' [E [_ [B _]]]].
  exists s'. split; [exact E|]. rewrite B. reflexivity.
Defined.

(** ** The header of a file *)

Lemma file_headers_app file c1 c2 :
  file_headers file (c1 ++ c2)
  = (file_headers file c1 + file_headers file c2)%nat.
Proof. unfold file_headers. rewrite List.filter_app. apply length_app. Qed.

Lemma no_header_refl file s : no_header file s s.
Proof. split; reflexivity. Qed.

Lemma no_header_trans file a b c :
  no_header file a b -> no_header file b c -> no_header file a c.
Proof. intros [F1 H1] [F2 H2]. split; congruence. Qed.

Lemma no_header_echo file o :
  is_file_header file o = false -> within (no_header file) (Report.echo o).
Proof.
  intros Ho s. split; [reflexivity|].
  unfold Report.echo. cbn [snd Report.sd_console].
  rewrite file_headers_app. unfold file_headers at 2. cbn [List.filter].
  rewrite Ho. cbn. lia.
Qed.

Lemma no_header_same {A} file (m : Report.M A) :
  (forall s, Report.sd_tests_file (m s).2 = Report.sd_tests_file s /\
             Report.sd_console (m s).2 = Report.sd_console s) ->
  within (no_header file) m.
Proof.
  intros H s. destruct (H s) as [F C]. split; [exact F|].
  rewrite C. reflexivity.
Qed.

Ltac no_header_prim :=
  first
    [ apply no_header_echo; cbn; rewrite ?andb_false_r; reflexivity
    | apply no_header_same; intros ?; split; reflexivity ].

Ltac no_header_steps file tac :=
  within_steps (no_header_refl file) (no_header_trans file) tac.

Lemma no_header_flag file k flag :
  within (no_header file) (Report.tests_test_flag k flag).
Proof. unfold Report.tests_test_flag. no_header_steps file no_header_prim. Qed.

Lemma no_header_output file args title state text status :
  within (no_header file) (Report.output args title state text status).
Proof.
  unfold Report.output, Report.echo_marker, Report.read_schr.
  no_header_steps file no_header_prim.
Qed.

Ltac no_header_calls file :=
  first [ apply no_header_output | apply no_header_flag | no_header_prim ].

Lemma no_header_sections file args r secs :
  forall state,
    within (no_header file) (Report.logreport_sections args r state secs).
Proof.
  induction secs as [|sec rest IH]; intros state; simpl.
  - no_header_steps file no_header_prim.
  - unfold Report.logreport_section.
    no_header_steps file ltac:(first [ apply IH | no_header_calls file ]).
Qed.

(** The hooks other than the status hook write no file header. *)
Lemma no_header_hook file args e :
  (forall r, e <> Report.ReportTeststatus r) ->
  within (no_header file) (Report.hook args e).
Proof.
  intros He. destruct e as [r| |r|r|]; simpl.
  - unfold Report.pytest_collectreport.
    no_header_steps file ltac:(no_header_calls file).
  - unfold Report.pytest_sessionstart.
    no_header_steps file ltac:(no_header_calls file).
  - exfalso. exact (He r eq_refl).
  - unfold Report.pytest_runtest_logreport.
    no_header_steps file
      ltac:(first [ apply no_header_sections | no_header_calls file ]).
  - intros s. rewrite sessionfinish_spec. split; [reflexivity|].
    cbn [snd Report.set_console Report.sd_console].
    rewrite file_headers_app.
    assert (Hz : file_headers file
               (Report.finish_header ::
                (if str_truthy (Report.a_stdout args)
                 then map Report.EchoBlock (Report.sd_stdout s) else []))
             = 0%nat).
    { unfold file_headers. cbn [List.filter is_file_header
                                Report.finish_header].
      rewrite andb_false_r.
      destruct (str_truthy (Report.a_stdout args)); [|reflexivity].
      induction (Report.sd_stdout s) as [|b bs IHb]; [reflexivity | exact IHb]. }
    rewrite Hz. lia.
Qed.

Lemma header_balance_refl file s : header_balance file s s.
Proof. unfold header_balance. lia. Qed.

Lemma header_balance_trans file a b c :
  header_balance file a b -> header_balance file b c -> header_balance file a c.
Proof. unfold header_balance. lia. Qed.

Lemma header_balance_no_header {A} file (m : Report.M A) :
  within (no_header file) m -> within (header_balance file) m.
Proof.
  intros H s. destruct (H s) as [F C]. unfold header_balance.
  rewrite F, C. lia.
Qed.

Ltac header_leaf :=
  unfold header_balance;
  cbn [Report.sd_tests_file Report.sd_console snd];
  rewrite ?file_headers_app;
  unfold file_headers;
  cbn [List.filter is_file_header length];
  rewrite ?has_key_insert;
  rewrite ?has_key_insert_ne by congruence;
  repeat match goal with
         | H : has_key ?k ?m = _ |- context [has_key ?k ?m] => rewrite H
         | H : (_ =? _)%string = _ |- _ => rewrite H
         end;
  rewrite ?String.eqb_refl, ?andb_false_r;
  cbn [andb length String.eqb Ascii.eqb Bool.eqb];
  try lia.

Lemma header_balance_status file args r :
  within (header_balance file) (Report.pytest_report_teststatus args r).
Proof.
  intros s. unfold Report.pytest_report_teststatus.
  destruct (split_sep (Report.nodeid r)) as [[file0 test]|] eqn:Hsplit;
    [ | apply header_balance_refl ].
  output_unfold.
  destruct (decide (file0 = file)) as [E|E].
  - subst file0. monad_run; header_leaf.
  - assert (Eb : (file0 =? file)%string = false)
      by (apply String.eqb_neq; exact E).
    monad_run; header_leaf.
Qed.

Lemma header_balance_hook file args e :
  within (header_balance file) (Report.hook args e).
Proof.
  destruct e as [r| |r|r|];
    try (apply header_balance_no_header, no_header_hook; discriminate).
  simpl. apply (within_bind _ (header_balance_trans file));
    [ apply header_balance_status
    | intros ?; apply (within_ret _ (header_balance_refl file)) ].
Qed.

Lemma header_balance_run file args es :
  within (header_balance file) (Report.run args es).
Proof.
  induction es as [|e rest IH]; simpl.
  - apply (within_ret _ (header_balance_refl file)).
  - apply (within_bind _ (header_balance_trans file));
      [ apply header_balance_hook | intros _; exact IH ].
Qed.

(** The headers of a file counted against the registry of files. *)
Lemma file_header_count
    (args : Report.args_t) (es : list Report.event) (file : string) :
  let s := (Report.run args es Report.init).2 in
  file_headers file (Report.sd_console s)
  = (if has_key file (Report.sd_tests_file s) then 1 else 0)%nat /\
  (file_headers file (Report.sd_console s) <= 1)%nat.
Proof.
  intros s. subst s.
  pose proof (header_balance_run file args es Report.init) as H.
  unfold header_balance in H.
  assert (H0 : has_key file (Report.sd_tests_file Report.init) = false)
    by (unfold has_key; cbn [Report.sd_tests_file Report.init];
        rewrite lookup_empty; reflexivity).
  rewrite H0 in H.
  change (file_headers file (Report.sd_console Report.init)) with 0%nat in H.
  destruct (has_key file
              (Report.sd_tests_file (Report.run args es Report.init).2));
    lia.
Qed.

(** X20. Along any run from the class definition, the header of a file
    stands on the console once if the file is in the registry of files and
    not at all otherwise: no file header is ever repeated, whatever the
    order of the calls and whether or not one of them raises. *)
Theorem file_header_once
    (args : Report.args_t) (es : list Report.event) (file : string) :
  let s := (Report.run args es Report.init).2 in
  file_headers file (Report.sd_console s)
  = (if has_key file (Report.sd_tests_file s) then 1 else 0)%nat /\
  (file_headers file (Report.sd_console s) <= 1)%nat.
Proof. apply file_header_count. Qed.

Lemma file_kept_refl file s : file_kept file s s.
Proof. intros H. exact H. Qed.

Lemma file_kept_trans file a b c :
  file_kept file a b -> file_kept file b c -> file_kept file a c.
Proof. unfold file_kept. auto. Qed.

Lemma file_kept_run file args es : within (file_kept file) (Report.run args es).
Proof.
  apply (within_run _ (file_kept_refl file) (file_kept_trans file));
    try (intros; intros ? ?; assumption).
  - intros k s Hk. cbn. apply has_key_keep. exact Hk.
  - intros title state text status.
    unfold Report.output, Report.echo_marker, Report.read_schr.
    within_steps (file_kept_refl file) (file_kept_trans file)
      ltac:(intros ? ?; assumption).
  - intros s Hk. rewrite sessionfinish_spec. exact Hk.
Qed.

(** X21. In a run from the class definition that returns, if a status call
    was made for a test of [file], the header of [file] stands on the
    console exactly once at the end, however many tests of the file were
    reported. *)
Theorem file_header_exactly_once
    (args : Report.args_t) (es1 es2 : list Report.event)
    (r : Report.report) (file : string) :
  well_formed (Report.nodeid r) = true ->
  split_head (Report.nodeid r) = file ->
  let run := Report.run args (es1 ++ Report.ReportTeststatus r :: es2)
               Report.init in
  run.1 = inr tt ->
  file_headers file (Report.sd_console run.2) = 1%nat.
Proof.
  intros Hw Hf run Hret. subst run.
  pose proof (file_header_count args (es1 ++ Report.ReportTeststatus r :: es2)
                file) as [Hc _].
  cbv zeta in Hc. rewrite Hc. clear Hc.
  rewrite run_app in *.
  destruct (Report.run args es1 Report.init) as [[x|[]] s1];
    [discriminate Hret|].
  cbn [Report.run Report.hook] in *. unfold Report.bind in *.
  destruct (teststatus_returns args r s1) as [s2 [E2 [K2 _]]].
  destruct (K2 Hw) as [_ Kf]. rewrite Hf in Kf.
  rewrite E2 in *. cbn [Report.ret] in *.
  rewrite (file_kept_run file args es2 s2 Kf). reflexivity.
Qed.

Lemma file_header_exactly_once_witness :
  let args := Report.inline (Some "fail") in
  let t1 := Report.pytest_report "a::t1" "call" "passed" [] PyNone in
  let t2 := Report.pytest_report "a::t2" "call" "failed" []
              (PyRepr "trace" (Some "a:7: boom")) in
  file_headers "a"
    (Report.sd_console
       (Report.run args (Report.phase t1 ++ Report.phase t2) Report.init).2)
  = 1%nat.
Proof.
  intros args t1 t2.
  apply (file_header_exactly_once args []
           (Report.RuntestLogreport t1 :: Report.phase t2) t1 "a");
    reflexivity.
Defined.

(** ** What deferred mode shows in the end *)

Lemma quiet_run f es :
  forallb (fun e => negb (is_finish e)) es = true ->
  within quiet (Report.run (Report.deferred f) es).
Proof.
  induction es as [|e rest IH]; intros Hes; simpl.
  - apply (within_ret _ quiet_refl).
  - simpl in Hes. apply andb_true_iff in Hes. destruct Hes as [He Hrest].
    apply (within_bind _ quiet_trans); [ | intros _; apply IH; exact Hrest ].
    apply quiet_hook. intros ->. discriminate He.
Qed.

(** The blocks on the console once the session-finish call has been made
    on the state that a deferred run leaves. *)
Lemma deferred_flush_blocks (f : option string) (es : list Report.event) :
  forallb (fun e => negb (is_finish e)) es = true ->
  let s := (Report.run (Report.deferred f) es Report.init).2 in
  let r := Report.pytest_sessionfinish (Report.deferred f) s in
  r.1 = inr tt /\
  Report.blocks_in (Report.sd_console r.2) = Report.sd_stdout s /\
  Report.sd_stdout r.2 = Report.sd_stdout s.
Proof.
  intros Hes s r. subst r s.
  destruct (quiet_run f es Hes Report.init) as [l [Hl Bl]].
  assert (Hb : str_truthy f = false ->
               Report.sd_stdout
                 (Report.run (Report.deferred f) es Report.init).2 = [])
    by (intros Ef;
        apply (same_buffer_run (Report.deferred f) es (or_intror Ef)
                 Report.init)).
  rewrite sessionfinish_spec. cbn [fst snd].
  split; [reflexivity|]. split; [|reflexivity].
  cbn [Report.set_console Report.sd_console Report.sd_stdout
       Report.a_stdout Report.deferred].
  rewrite blocks_in_app, Hl. cbn [Report.init Report.sd_console app].
  rewrite Bl. cbn [app Report.blocks_in Report.finish_header].
  destruct (str_truthy f) eqn:Ef.
  - apply blocks_in_map.
  - symmetry. apply Hb. reflexivity.
Qed.

(** X22. Deferred mode, calls from the class definition, none of them the
    session-finish call. Whether every hook returned or one of them raised
    and ended the calls, the session-finish call that pytest makes last, on
    the state that is left, returns, and the blocks then on the console are
    exactly the buffer, in the order the blocks were appended; the buffer
    itself is left as it is. *)
Theorem deferred_shows_buffer (f : option string) (es : list Report.event) :
  forallb (fun e => negb (is_finish e)) es = true ->
  let s := (Report.run (Report.deferred f) es Report.init).2 in
  let r := Report.pytest_sessionfinish (Report.deferred f) s in
  r.1 = inr tt /\
  Report.blocks_in (Report.sd_console r.2) = Report.sd_stdout s /\
  Report.sd_stdout r.2 = Report.sd_stdout s.
Proof. apply deferred_flush_blocks. Qed.

Lemma deferred_shows_buffer_witness :
  let es := (reported_call "f.py::a" "passed" "one" PyNone ++
             reported_call "f.py::b" "failed" "two"
               (PyRepr "trace" (Some "f.py:4: boom")))%list in
  let s := (Report.run (Report.deferred (Some "all")) es Report.init).2 in
  let r := Report.pytest_sessionfinish (Report.deferred (Some "all")) s in
  forallb (fun e => negb (is_finish e)) es = true /\
  r.1 = inr tt /\
  Report.blocks_in (Report.sd_console r.2) = Report.sd_stdout s /\
  Report.sd_stdout r.2 = Report.sd_stdout s.
Proof.
  intros es s r. split; [reflexivity|].
  apply (deferred_shows_buffer (Some "all") es). reflexivity.
Defined.

(** ** Inline and deferred runs side by side *)

Lemma related_ret {A} (a : A) : related (Report.ret a) (Report.ret a).
Proof. intros s1 s2 H. split; [reflexivity | exact H]. Qed.

Lemma related_raise {A} (e : Report.exn) :
  related (@Report.raise A e) (Report.raise e).
Proof. intros s1 s2 H. split; [reflexivity | exact H]. Qed.

Lemma related_bind {A B} (m1 m2 : Report.M A) (k1 k2 : A -> Report.M B) :
  related m1 m2 -> (forall a, related (k1 a) (k2 a)) ->
  related (Report.bind m1 k1) (Report.bind m2 k2).
Proof.
  intros Hm Hk s1 s2 H. unfold Report.bind.
  destruct (Hm s1 s2 H) as [E S].
  destruct (m1 s1) as [[e1|a1] t1], (m2 s2) as [[e2|a2] t2];
    cbn [fst snd] in *; try discriminate E.
  - split; [congruence | exact S].
  - injection E as <-. apply Hk. exact S.
Qed.

Lemma related_when (b : bool) (m1 m2 : Report.M unit) :
  related m1 m2 -> related (Report.when_ b m1) (Report.when_ b m2).
Proof. intros H. destruct b; simpl; [exact H | apply related_ret]. Qed.

Lemma related_get {X} (f : Report.agg -> X) :
  (forall s1 s2, same_blocks s1 s2 -> f s1 = f s2) ->
  related (Report.get f) (Report.get f).
Proof.
  intros Hf s1 s2 H. unfold Report.get. cbn. split; [|exact H].
  rewrite (Hf s1 s2 H). reflexivity.
Qed.

Lemma related_tests_test_get k :
  related (Report.tests_test_get k) (Report.tests_test_get k).
Proof.
  intros s1 s2 H. unfold Report.tests_test_get.
  destruct H as [H1 [H2 [H3 H4]]]. rewrite H3.
  destruct (Report.sd_tests_test s2 !! k); cbn;
    (split; [reflexivity | repeat split; assumption]).
Qed.

(** A line that is no block, on both sides or on the inline side only. *)
Lemma related_echo o :
  Report.is_block o = false -> related (Report.echo o) (Report.echo o).
Proof.
  intros Ho s1 s2 [H1 [H2 [H3 H4]]]. cbn. split; [reflexivity|].
  repeat split; cbn; try assumption.
  rewrite blocks_in_app. destruct o; try discriminate Ho; cbn;
    rewrite app_nil_r; exact H4.
Qed.

Lemma related_echo_inline o :
  Report.is_block o = false ->
  related (Report.when_ true (Report.echo o)) (Report.when_ false (Report.echo o)).
Proof.
  intros Ho s1 s2 [H1 [H2 [H3 H4]]]. cbn. split; [reflexivity|].
  repeat split; cbn; try assumption.
  rewrite blocks_in_app. destruct o; try discriminate Ho; cbn;
    rewrite app_nil_r; exact H4.
Qed.

Lemma related_update (m : Report.M unit) :
  (forall s, (m s).1 = inr tt /\
             Report.sd_console (m s).2 = Report.sd_console s /\
             Report.sd_stdout (m s).2 = Report.sd_stdout s) ->
  (forall s1 s2, same_blocks s1 s2 ->
     Report.sd_state (m s1).2 = Report.sd_state (m s2).2 /\
     Report.sd_tests_file (m s1).2 = Report.sd_tests_file (m s2).2 /\
     Report.sd_tests_test (m s1).2 = Report.sd_tests_test (m s2).2) ->
  related m m.
Proof.
  intros Hm Hd s1 s2 H.
  destruct (Hm s1) as [R1 [C1 B1]]. destruct (Hm s2) as [R2 [C2 B2]].
  destruct (Hd s1 s2 H) as [D1 [D2 D3]].
  destruct H as [_ [_ [_ H4]]].
  split; [congruence|]. repeat split; try assumption.
  rewrite C1, B2. exact H4.
Qed.

Ltac related_dict :=
  apply related_update;
  [ intros ?; repeat split; reflexivity
  | intros ? ? [? [? [? ?]]]; cbn; repeat split; congruence ].

Lemma related_flag k flag :
  related (Report.tests_test_flag k flag) (Report.tests_test_flag k flag).
Proof.
  unfold Report.tests_test_flag.
  apply related_bind; [apply related_tests_test_get | intros d].
  related_dict.
Qed.

(** [output] in the two modes: the block echoed in the one is appended in
    the other; markers differ, the way of ending does not. *)
Lemma related_output f title st text status :
  related (Report.output (Report.inline f) title st text status)
          (Report.output (Report.deferred f) title st text status).
Proof.
  intros s1 s2 [H1 [H2 [H3 H4]]].
  unfold Report.output, Report.echo_marker, Report.read_schr,
    Report.stdout_selects.
  cbn [Report.a_stdout Report.a_stdout_inline Report.inline Report.deferred
       negb].
  destruct status, (truthy text), (st =? "fail")%string,
    (st =? "pass")%string;
    destruct f as [x|]; try destruct (x =? st)%string;
    try destruct (x =? "all")%string; cbn;
    (split; [reflexivity|]);
    repeat split; cbn; try assumption;
    rewrite ?blocks_in_app; cbn; rewrite ?app_nil_r; congruence.
Qed.

Ltac related_step f :=
  first
    [ apply related_ret
    | apply related_raise
    | apply related_tests_test_get
    | apply related_flag
    | apply (related_output f)
    | apply related_echo_inline; reflexivity
    | apply related_echo; reflexivity
    | apply related_get; intros ? ? [? [? [? ?]]]; assumption
    | related_dict
    | apply related_when
    | apply related_bind; [ | intros ? ]
    | match goal with
      | |- related (if ?b then _ else _) _ => destruct b eqn:?
      | |- related (match ?x with _ => _ end) _ => destruct x eqn:?
      | |- related (let '(_, _) := ?p in _) _ => destruct p
      end ].

Lemma related_sections f r secs :
  forall state,
    related (Report.logreport_sections (Report.inline f) r state secs)
            (Report.logreport_sections (Report.deferred f) r state secs).
Proof.
  induction secs as [|sec rest IH]; intros state;
    cbn [Report.logreport_sections].
  - apply related_ret.
  - apply related_bind; [ | intros st'; apply IH ].
    unfold Report.logreport_section.
    repeat related_step f.
Qed.

Lemma related_hook f e :
  is_finish e = false ->
  related (Report.hook (Report.inline f) e) (Report.hook (Report.deferred f) e).
Proof.
  intros He. destruct e as [r| |r|r|]; try discriminate He;
    cbn [Report.hook];
    unfold Report.pytest_collectreport, Report.pytest_sessionstart,
      Report.pytest_report_teststatus, Report.pytest_runtest_logreport;
    cbn [Report.a_stdout_inline Report.inline Report.deferred];
    repeat first [ apply related_sections | related_step f ].
Qed.

Lemma related_run f es :
  forallb (fun e => negb (is_finish e)) es = true ->
  related (Report.run (Report.inline f) es) (Report.run (Report.deferred f) es).
Proof.
  induction es as [|e rest IH]; intros Hes; cbn [Report.run].
  - apply related_ret.
  - simpl in Hes. apply andb_true_iff in Hes. destruct Hes as [He Hrest].
    apply negb_true_iff in He.
    apply related_bind; [ apply related_hook; exact He | intros _ ].
    apply IH. exact Hrest.
Qed.

Lemma same_blocks_init : same_blocks Report.init Report.init.
Proof. repeat split. Qed.

(** X23. The timing mode decides when a block is written, not which blocks
    are. For the same calls from the class definition, none of them the
    session-finish call, the inline run and the deferred run end the same
    way (both return, or both raise the same exception at the same call),
    with the same registries, and the blocks echoed by the inline run are,
    in order, the blocks buffered by the deferred run. When the session
    then finishes, the two consoles hold the same blocks in the same
    order. *)
Theorem inline_deferred_same_blocks
    (f : option string) (es : list Report.event) :
  forallb (fun e => negb (is_finish e)) es = true ->
  let ri := Report.run (Report.inline f) es Report.init in
  let rd := Report.run (Report.deferred f) es Report.init in
  ri.1 = rd.1 /\
  Report.sd_tests_test ri.2 = Report.sd_tests_test rd.2 /\
  Report.blocks_in (Report.sd_console ri.2) = Report.sd_stdout rd.2 /\
  (rd.1 = inr tt ->
   Report.blocks_in
     (Report.sd_console
        (Report.run (Report.inline f) (es ++ [Report.SessionFinish])
           Report.init).2)
   = Report.blocks_in
       (Report.sd_console
          (Report.run (Report.deferred f) (es ++ [Report.SessionFinish])
             Report.init).2)).
Proof.
  intros Hes ri rd. subst ri rd.
  destruct (related_run f es Hes Report.init Report.init same_blocks_init)
    as [E [_ [_ [T B]]]].
  split; [exact E|]. split; [exact T|]. split; [exact B|].
  intros Hret.
  pose proof (deferred_flush_blocks f es Hes) as [_ [Hd _]]. cbv zeta in Hd.
  pose proof (same_buffer_run (Report.inline f) es (or_introl eq_refl)
                Report.init) as Hi.
  unfold same_buffer in Hi. cbn [Report.init Report.sd_stdout] in Hi.
  rewrite !run_app in *.
  destruct (Report.run (Report.deferred f) es Report.init) as [[x|[]] sd];
    [discriminate Hret|].
  destruct (Report.run (Report.inline f) es Report.init) as [[y|[]] si];
    [discriminate E|].
  cbn [fst snd] in *.
  cbn [Report.run Report.hook] in *. unfold Report.bind in *.
  rewrite !sessionfinish_spec in *. cbn [Report.ret fst snd] in *.
  cbn [Report.set_console Report.sd_console Report.sd_stdout Report.a_stdout
       Report.inline Report.deferred] in *.
  rewrite Hd. rewrite blocks_in_app, Hi.
  cbn [Report.blocks_in Report.finish_header].
  destruct (str_truthy f); cbn [map Report.blocks_in]; rewrite app_nil_r;
    exact B.
Qed.

Lemma inline_deferred_same_blocks_witness :
  let es := (Report.printed_call "f.py::a" "passed" "one" ++
             Report.printed_call "f.py::b" "failed" "two")%list in
  Report.blocks_in
    (Report.sd_console (Report.run (Report.inline (Some "all")) es
                          Report.init).2)
  = Report.sd_stdout (Report.run (Report.deferred (Some "all")) es
                        Report.init).2.
Proof.
  intros es.
  pose proof (inline_deferred_same_blocks (Some "all") es eq_refl)
    as [_ [_ [H _]]].
  exact H.
Defined.

(** ** The collection hook *)

Lemma same_registry_refl s : same_registry s s.
Proof. split; reflexivity. Qed.

Lemma same_registry_trans a b c :
  same_registry a b -> same_registry b c -> same_registry a c.
Proof. intros [T1 F1] [T2 F2]. split; congruence. Qed.

(** X24. A collection report never registers anything: the registry of
    tests and the registry of files are untouched by it, whatever it
    carries. Unless it is a skip, the hook returns without raising. *)
Theorem collect_never_registers
    (args : Report.args_t) (r : Report.report) (s : Report.agg) :
  let res := Report.pytest_collectreport args r s in
  Report.sd_tests_test res.2 = Report.sd_tests_test s /\
  Report.sd_tests_file res.2 = Report.sd_tests_file s /\
  (Report.skipped r = false -> res.1 = inr tt).
Proof.
  intros res. subst res.
  assert (H : within same_registry (Report.pytest_collectreport args r)).
  { unfold Report.pytest_collectreport, Report.output, Report.echo_marker,
      Report.read_schr.
    within_steps same_registry_refl same_registry_trans
      ltac:(intros ?; split; reflexivity). }
  destruct (H s) as [T F]. split; [exact T|]. split; [exact F|].
  intros Hs. unfold Report.pytest_collectreport.
  destruct (report_state_bound r None Hs (or_introl eq_refl)) as [E|[E|E]];
    rewrite E.
  - monad_run; reflexivity.
  - assert (Hin : In "pass" ["pass"; "fail"]) by (simpl; auto).
    monad_output Hin; reflexivity.
  - assert (Hin : In "fail" ["pass"; "fail"]) by (simpl; auto).
    monad_output Hin; reflexivity.
Qed.
